(** * Live capture on Haiku sockets: a model of [pcap-haiku.c]

    The C file drives one network interface through sockets and [ioctl]
    requests.  Everything it does is a conversation with the kernel, so
    the model is a state monad over the capture handle, [errno] and an
    abstract kernel, which also records every call that leaves the
    process as an [event].  The kernel is a type class: the theorems hold
    for every kernel behaviour, and [Sim] below gives a small simulated
    interface on which the functions can be run. *)

From Stdlib Require Import ZArith List String Ascii Bool Lia.
From Stdlib Require Import DecimalString HexadecimalString.
Import ListNotations.

Local Open Scope Z_scope.

(** ** Constants *)

(** Modelled from the spec: the status codes and sizes of [pcap/pcap.h]
    and [pcap-int.h], which are not under src/.  Section 7 of the spec
    asks for small status codes that tell the non-success cases of
    activation apart; the values are those of libpcap's public header. *)
Definition PCAP_ERROR : Z := -1.
Definition PCAP_ERROR_BREAK : Z := -2.
Definition PCAP_ERROR_NO_SUCH_DEVICE : Z := -5.
Definition PCAP_WARNING_PROMISC_NOTSUP : Z := 2.
Definition PCAP_ERRBUF_SIZE : Z := 256.
Definition MAXIMUM_SNAPLEN : Z := 262144.

(** The constants of the system headers ([sys/socket.h], [net/if.h],
    [net/if_types.h], [errno.h]) and of [pcap/dlt.h] are not under src/
    either; the code only compares and combines them, so they stay
    abstract.  [IFT_TUNNEL] is [IFT_TUN] where the headers still have
    the old name (lines 31-38). *)
Class SysHeaders : Type := {
  AF_INET : Z;
  AF_LINK : Z;
  SOCK_DGRAM : Z;
  MSG_TRUNC : Z;
  IFF_PROMISC : Z;
  IFT_ETHER : Z;
  IFT_TUNNEL : Z;
  IFT_LOOP : Z;
  EINVAL : Z;
  B_INTERRUPTED : Z;
  B_WOULD_BLOCK : Z;
  DLT_EN10MB : Z;
  DLT_RAW : Z
}.

(** The request codes handed to [ioctl]; only their identity matters. *)
Inductive ioctl_op : Type :=
| SIOCGIFFLAGS
| SIOCSIFFLAGS
| SIOCGIFSTATS
| SIOCGIFADDR
| SIOCSPACKETCAP.

Definition ioctl_op_eqb (a b : ioctl_op) : bool :=
  match a, b with
  | SIOCGIFFLAGS, SIOCGIFFLAGS
  | SIOCSIFFLAGS, SIOCSIFFLAGS
  | SIOCGIFSTATS, SIOCGIFSTATS
  | SIOCGIFADDR, SIOCGIFADDR
  | SIOCSPACKETCAP, SIOCSPACKETCAP => true
  | _, _ => false
  end.

(** Unsigned 32-bit arithmetic ([u_int], [bpf_u_int32], [uint32]). *)
Definition wrap32 (z : Z) : Z := z mod 2 ^ 32.

(** ** Data *)

Definition byte : Type := Byte.byte.

(** [struct pcap_stat]: three [u_int] counters. *)
Record pcap_stat : Type := {
  ps_recv : Z;
  ps_drop : Z;
  ps_ifdrop : Z
}.

(** [struct sockaddr_dl], the two members the code reads. *)
Record sockaddr_dl : Type := {
  sdl_family : Z;
  sdl_type : Z
}.

(** [struct ifreq]: the interface name and the request members the code
    touches.  In C the members after the name share one union.  The
    model keeps them apart and lets the kernel rewrite the whole record
    on every request; what a member holds after a request that filled
    another one is not modelled. *)
Record struct_ifreq : Type := {
  ifr_name : string;
  ifr_flags : Z;
  ifr_addr : sockaddr_dl;
  ifr_stats_receive_dropped : Z
}.

Definition set_ifr_flags (v : Z) (r : struct_ifreq) : struct_ifreq :=
  {| ifr_name := ifr_name r; ifr_flags := v; ifr_addr := ifr_addr r;
     ifr_stats_receive_dropped := ifr_stats_receive_dropped r |}.

Definition set_ifr_name (v : string) (r : struct_ifreq) : struct_ifreq :=
  {| ifr_name := v; ifr_flags := ifr_flags r; ifr_addr := ifr_addr r;
     ifr_stats_receive_dropped := ifr_stats_receive_dropped r |}.

(** [struct pcap_haiku], lines 43-50. *)
Record pcap_haiku : Type := {
  stat : pcap_stat;
  aux_socket : Z;
  ifreq : struct_ifreq;
  orig_promisc : Z
}.

Definition set_stat (v : pcap_stat) (p : pcap_haiku) : pcap_haiku :=
  {| stat := v; aux_socket := aux_socket p; ifreq := ifreq p;
     orig_promisc := orig_promisc p |}.

Definition set_aux_socket (v : Z) (p : pcap_haiku) : pcap_haiku :=
  {| stat := stat p; aux_socket := v; ifreq := ifreq p;
     orig_promisc := orig_promisc p |}.

Definition set_ifreq (v : struct_ifreq) (p : pcap_haiku) : pcap_haiku :=
  {| stat := stat p; aux_socket := aux_socket p; ifreq := v;
     orig_promisc := orig_promisc p |}.

Definition set_orig_promisc (v : Z) (p : pcap_haiku) : pcap_haiku :=
  {| stat := stat p; aux_socket := aux_socket p; ifreq := ifreq p;
     orig_promisc := v |}.

(** A compiled filter program is opaque here: the code only tests the
    pointer and hands it to [pcapint_filter]. *)
Definition bpf_insn : Type := (Z * Z * Z * Z)%type.

(** The functions a handle's operation table can point to. *)
Inductive fnptr : Type :=
| Fn_not_initialized
| Fn_pcap_activate_haiku
| Fn_pcap_read_haiku
| Fn_pcapint_install_bpf_program
| Fn_pcap_inject_haiku
| Fn_pcap_stats_haiku
| Fn_pcap_cleanup_haiku
| Fn_pcapint_getnonblock_fd
| Fn_pcapint_setnonblock_fd.

(** [pcap_t], the members [pcap-haiku.c] uses.  [buffer] is [None] for a
    null pointer; [opt_device], [opt_promisc] and [fcode_bf_insns] are
    [opt.device], [opt.promisc] and [fcode.bf_insns]. *)
Record pcap_t : Type := {
  buffer : option (list byte);
  offset : Z;
  break_loop : Z;
  fd : Z;
  selectable_fd : Z;
  bufsize : Z;
  snapshot : Z;
  linktype : Z;
  errbuf : string;
  opt_device : string;
  opt_promisc : Z;
  fcode_bf_insns : option (list bpf_insn);
  priv : pcap_haiku;
  activate_op : fnptr;
  read_op : fnptr;
  setfilter_op : fnptr;
  inject_op : fnptr;
  stats_op : fnptr;
  cleanup_op : fnptr;
  getnonblock_op : fnptr;
  setnonblock_op : fnptr
}.

Definition set_buffer (v : option (list byte)) (h : pcap_t) : pcap_t :=
  {| buffer := v; offset := offset h; break_loop := break_loop h;
     fd := fd h; selectable_fd := selectable_fd h; bufsize := bufsize h;
     snapshot := snapshot h; linktype := linktype h; errbuf := errbuf h;
     opt_device := opt_device h; opt_promisc := opt_promisc h;
     fcode_bf_insns := fcode_bf_insns h; priv := priv h;
     activate_op := activate_op h; read_op := read_op h;
     setfilter_op := setfilter_op h; inject_op := inject_op h;
     stats_op := stats_op h; cleanup_op := cleanup_op h;
     getnonblock_op := getnonblock_op h; setnonblock_op := setnonblock_op h |}.

Definition set_offset (v : Z) (h : pcap_t) : pcap_t :=
  {| buffer := buffer h; offset := v; break_loop := break_loop h;
     fd := fd h; selectable_fd := selectable_fd h; bufsize := bufsize h;
     snapshot := snapshot h; linktype := linktype h; errbuf := errbuf h;
     opt_device := opt_device h; opt_promisc := opt_promisc h;
     fcode_bf_insns := fcode_bf_insns h; priv := priv h;
     activate_op := activate_op h; read_op := read_op h;
     setfilter_op := setfilter_op h; inject_op := inject_op h;
     stats_op := stats_op h; cleanup_op := cleanup_op h;
     getnonblock_op := getnonblock_op h; setnonblock_op := setnonblock_op h |}.

Definition set_break_loop (v : Z) (h : pcap_t) : pcap_t :=
  {| buffer := buffer h; offset := offset h; break_loop := v; fd := fd h;
     selectable_fd := selectable_fd h; bufsize := bufsize h;
     snapshot := snapshot h; linktype := linktype h; errbuf := errbuf h;
     opt_device := opt_device h; opt_promisc := opt_promisc h;
     fcode_bf_insns := fcode_bf_insns h; priv := priv h;
     activate_op := activate_op h; read_op := read_op h;
     setfilter_op := setfilter_op h; inject_op := inject_op h;
     stats_op := stats_op h; cleanup_op := cleanup_op h;
     getnonblock_op := getnonblock_op h; setnonblock_op := setnonblock_op h |}.

Definition set_fd (v : Z) (h : pcap_t) : pcap_t :=
  {| buffer := buffer h; offset := offset h; break_loop := break_loop h;
     fd := v; selectable_fd := selectable_fd h; bufsize := bufsize h;
     snapshot := snapshot h; linktype := linktype h; errbuf := errbuf h;
     opt_device := opt_device h; opt_promisc := opt_promisc h;
     fcode_bf_insns := fcode_bf_insns h; priv := priv h;
     activate_op := activate_op h; read_op := read_op h;
     setfilter_op := setfilter_op h; inject_op := inject_op h;
     stats_op := stats_op h; cleanup_op := cleanup_op h;
     getnonblock_op := getnonblock_op h; setnonblock_op := setnonblock_op h |}.

Definition set_selectable_fd (v : Z) (h : pcap_t) : pcap_t :=
  {| buffer := buffer h; offset := offset h; break_loop := break_loop h;
     fd := fd h; selectable_fd := v; bufsize := bufsize h;
     snapshot := snapshot h; linktype := linktype h; errbuf := errbuf h;
     opt_device := opt_device h; opt_promisc := opt_promisc h;
     fcode_bf_insns := fcode_bf_insns h; priv := priv h;
     activate_op := activate_op h; read_op := read_op h;
     setfilter_op := setfilter_op h; inject_op := inject_op h;
     stats_op := stats_op h; cleanup_op := cleanup_op h;
     getnonblock_op := getnonblock_op h; setnonblock_op := setnonblock_op h |}.

Definition set_bufsize (v : Z) (h : pcap_t) : pcap_t :=
  {| buffer := buffer h; offset := offset h; break_loop := break_loop h;
     fd := fd h; selectable_fd := selectable_fd h; bufsize := v;
     snapshot := snapshot h; linktype := linktype h; errbuf := errbuf h;
     opt_device := opt_device h; opt_promisc := opt_promisc h;
     fcode_bf_insns := fcode_bf_insns h; priv := priv h;
     activate_op := activate_op h; read_op := read_op h;
     setfilter_op := setfilter_op h; inject_op := inject_op h;
     stats_op := stats_op h; cleanup_op := cleanup_op h;
     getnonblock_op := getnonblock_op h; setnonblock_op := setnonblock_op h |}.

Definition set_snapshot (v : Z) (h : pcap_t) : pcap_t :=
  {| buffer := buffer h; offset := offset h; break_loop := break_loop h;
     fd := fd h; selectable_fd := selectable_fd h; bufsize := bufsize h;
     snapshot := v; linktype := linktype h; errbuf := errbuf h;
     opt_device := opt_device h; opt_promisc := opt_promisc h;
     fcode_bf_insns := fcode_bf_insns h; priv := priv h;
     activate_op := activate_op h; read_op := read_op h;
     setfilter_op := setfilter_op h; inject_op := inject_op h;
     stats_op := stats_op h; cleanup_op := cleanup_op h;
     getnonblock_op := getnonblock_op h; setnonblock_op := setnonblock_op h |}.

Definition set_linktype (v : Z) (h : pcap_t) : pcap_t :=
  {| buffer := buffer h; offset := offset h; break_loop := break_loop h;
     fd := fd h; selectable_fd := selectable_fd h; bufsize := bufsize h;
     snapshot := snapshot h; linktype := v; errbuf := errbuf h;
     opt_device := opt_device h; opt_promisc := opt_promisc h;
     fcode_bf_insns := fcode_bf_insns h; priv := priv h;
     activate_op := activate_op h; read_op := read_op h;
     setfilter_op := setfilter_op h; inject_op := inject_op h;
     stats_op := stats_op h; cleanup_op := cleanup_op h;
     getnonblock_op := getnonblock_op h; setnonblock_op := setnonblock_op h |}.

Definition set_errbuf (v : string) (h : pcap_t) : pcap_t :=
  {| buffer := buffer h; offset := offset h; break_loop := break_loop h;
     fd := fd h; selectable_fd := selectable_fd h; bufsize := bufsize h;
     snapshot := snapshot h; linktype := linktype h; errbuf := v;
     opt_device := opt_device h; opt_promisc := opt_promisc h;
     fcode_bf_insns := fcode_bf_insns h; priv := priv h;
     activate_op := activate_op h; read_op := read_op h;
     setfilter_op := setfilter_op h; inject_op := inject_op h;
     stats_op := stats_op h; cleanup_op := cleanup_op h;
     getnonblock_op := getnonblock_op h; setnonblock_op := setnonblock_op h |}.

Definition set_priv (v : pcap_haiku) (h : pcap_t) : pcap_t :=
  {| buffer := buffer h; offset := offset h; break_loop := break_loop h;
     fd := fd h; selectable_fd := selectable_fd h; bufsize := bufsize h;
     snapshot := snapshot h; linktype := linktype h; errbuf := errbuf h;
     opt_device := opt_device h; opt_promisc := opt_promisc h;
     fcode_bf_insns := fcode_bf_insns h; priv := v;
     activate_op := activate_op h; read_op := read_op h;
     setfilter_op := setfilter_op h; inject_op := inject_op h;
     stats_op := stats_op h; cleanup_op := cleanup_op h;
     getnonblock_op := getnonblock_op h; setnonblock_op := setnonblock_op h |}.

Definition set_opt_device (v : string) (h : pcap_t) : pcap_t :=
  {| buffer := buffer h; offset := offset h; break_loop := break_loop h;
     fd := fd h; selectable_fd := selectable_fd h; bufsize := bufsize h;
     snapshot := snapshot h; linktype := linktype h; errbuf := errbuf h;
     opt_device := v; opt_promisc := opt_promisc h;
     fcode_bf_insns := fcode_bf_insns h; priv := priv h;
     activate_op := activate_op h; read_op := read_op h;
     setfilter_op := setfilter_op h; inject_op := inject_op h;
     stats_op := stats_op h; cleanup_op := cleanup_op h;
     getnonblock_op := getnonblock_op h; setnonblock_op := setnonblock_op h |}.

Definition set_opt_promisc (v : Z) (h : pcap_t) : pcap_t :=
  {| buffer := buffer h; offset := offset h; break_loop := break_loop h;
     fd := fd h; selectable_fd := selectable_fd h; bufsize := bufsize h;
     snapshot := snapshot h; linktype := linktype h; errbuf := errbuf h;
     opt_device := opt_device h; opt_promisc := v;
     fcode_bf_insns := fcode_bf_insns h; priv := priv h;
     activate_op := activate_op h; read_op := read_op h;
     setfilter_op := setfilter_op h; inject_op := inject_op h;
     stats_op := stats_op h; cleanup_op := cleanup_op h;
     getnonblock_op := getnonblock_op h; setnonblock_op := setnonblock_op h |}.

Definition set_fcode_bf_insns (v : option (list bpf_insn)) (h : pcap_t)
    : pcap_t :=
  {| buffer := buffer h; offset := offset h; break_loop := break_loop h;
     fd := fd h; selectable_fd := selectable_fd h; bufsize := bufsize h;
     snapshot := snapshot h; linktype := linktype h; errbuf := errbuf h;
     opt_device := opt_device h; opt_promisc := opt_promisc h;
     fcode_bf_insns := v; priv := priv h;
     activate_op := activate_op h; read_op := read_op h;
     setfilter_op := setfilter_op h; inject_op := inject_op h;
     stats_op := stats_op h; cleanup_op := cleanup_op h;
     getnonblock_op := getnonblock_op h; setnonblock_op := setnonblock_op h |}.

Definition set_activate_op (v : fnptr) (h : pcap_t) : pcap_t :=
  {| buffer := buffer h; offset := offset h; break_loop := break_loop h;
     fd := fd h; selectable_fd := selectable_fd h; bufsize := bufsize h;
     snapshot := snapshot h; linktype := linktype h; errbuf := errbuf h;
     opt_device := opt_device h; opt_promisc := opt_promisc h;
     fcode_bf_insns := fcode_bf_insns h; priv := priv h;
     activate_op := v; read_op := read_op h;
     setfilter_op := setfilter_op h; inject_op := inject_op h;
     stats_op := stats_op h; cleanup_op := cleanup_op h;
     getnonblock_op := getnonblock_op h; setnonblock_op := setnonblock_op h |}.

(** Lines 302-311 of [pcap_activate_haiku]: eight consecutive member
    assignments, written as one update. *)
Definition install_ops (h : pcap_t) : pcap_t :=
  {| buffer := buffer h; offset := offset h; break_loop := break_loop h;
     fd := fd h; selectable_fd := fd h; bufsize := bufsize h;
     snapshot := snapshot h; linktype := linktype h; errbuf := errbuf h;
     opt_device := opt_device h; opt_promisc := opt_promisc h;
     fcode_bf_insns := fcode_bf_insns h; priv := priv h;
     activate_op := activate_op h;
     read_op := Fn_pcap_read_haiku;
     setfilter_op := Fn_pcapint_install_bpf_program;
     inject_op := Fn_pcap_inject_haiku;
     stats_op := Fn_pcap_stats_haiku;
     cleanup_op := Fn_pcap_cleanup_haiku;
     getnonblock_op := Fn_pcapint_getnonblock_fd;
     setnonblock_op := Fn_pcapint_setnonblock_fd |}.

(** [struct pcap_pkthdr] with its [struct timeval]. *)
Record pcap_pkthdr : Type := {
  ts_tv_sec : Z;
  ts_tv_usec : Z;
  caplen : Z;
  len : Z
}.

(** ** The world outside the handle *)

(** Every call that leaves [pcap-haiku.c], with what it was given and
    what it answered.  Of an [ioctl] request record the event keeps the
    flags a [SIOCSIFFLAGS] request submits; the other requests submit
    nothing but the interface name, and their events carry 0. *)
Inductive event : Type :=
| EvSocket (af : Z) (ret : Z)
| EvIoctl (fd : Z) (op : ioctl_op) (flags : Z) (ret : Z)
| EvClose (fd : Z)
| EvRecvfrom (fd : Z) (size : Z) (ret : Z)
| EvClock (ts : Z)
| EvMalloc (size : Z)
| EvFilter (insns : list bpf_insn) (pkt : list byte)
           (snaplen wirelen : Z) (ret : Z)
| EvCallback (hdr : pcap_pkthdr) (pkt : list byte).

(** The kernel and the C library.  A call answers with its return value
    and the [errno] it leaves on failure; [ioctl] and [recvfrom] also
    answer with the new contents of the memory they were pointed at.
    The result of [close], which the code ignores, is left out. *)
Class Kernel (K : Type) : Type := {
  sys_socket : Z -> Z -> Z -> K -> Z * Z * K;
  sys_ioctl : Z -> ioctl_op -> struct_ifreq -> K -> Z * Z * struct_ifreq * K;
  sys_close : Z -> K -> K;
  sys_recvfrom : Z -> list byte -> Z -> Z -> K -> Z * Z * list byte * K;
  sys_malloc : Z -> K -> option (list byte) * Z * K;
  sys_real_time_clock_usecs : K -> Z * K
}.

(** The two libpcap helpers the file calls ([pcap-int.h], not under
    src/): the filter interpreter and the formatter of an [errno]
    message.  Section 6 of the spec gives their interfaces; both are pure
    functions of their arguments. *)
Class PcapInt : Type := {
  pcapint_filter : list bpf_insn -> list byte -> Z -> Z -> Z;
  pcapint_fmt_errmsg_for_errno : Z -> string -> string
}.

Record state (K : Type) : Type := {
  handle : pcap_t;
  errno : Z;
  kernel : K
}.
Arguments handle {K} _.
Arguments errno {K} _.
Arguments kernel {K} _.
Arguments Build_state {K} _ _ _.

(** ** Formatting *)

Definition dquote : string := String (ascii_of_nat 34) EmptyString.

(** ["%d"], ["%ld"] and ["%u"] of an integer in range. *)
Definition fmt_d (z : Z) : string :=
  DecimalString.NilZero.string_of_int (Z.to_int z).

(** ["%0x"]: lower-case hexadecimal, no padding since no width is given. *)
Definition fmt_x (z : Z) : string :=
  HexadecimalString.NilZero.string_of_uint (N.to_hex_uint (Z.to_N z)).

(** [snprintf(errbuf, PCAP_ERRBUF_SIZE, ...)] keeps at most
    [PCAP_ERRBUF_SIZE - 1] characters. *)
Definition snprintf_errbuf (msg : string) : string :=
  substring 0 (Z.to_nat (PCAP_ERRBUF_SIZE - 1)) msg.

Definition msg_recv_exceeds (bytesReceived bufsize : Z) : string :=
  ("recvfrom() returned " ++ fmt_d bytesReceived ++
   ", which exceeds the buffer size " ++ fmt_d bufsize)%string.

Definition msg_wrong_af (family : Z) (device : string) : string :=
  ("Got AF " ++ fmt_d family ++ " instead of AF_LINK for interface " ++
   dquote ++ device ++ dquote ++ ".")%string.

Definition msg_unknown_type (type : Z) (device : string) : string :=
  ("Unknown interface type 0x" ++ fmt_x type ++ " for interface " ++
   dquote ++ device ++ dquote ++ ".")%string.

(** ** The monad *)

Section Model.

Context {sys : SysHeaders} {lib : PcapInt} {K : Type} {kern : Kernel K}.

(** A computation reads and writes the state and emits events. *)
Definition M (A : Type) : Type := state K -> A * state K * list event.

Definition pure {A : Type} (a : A) : M A := fun s => (a, s, []).

Definition bind {A B : Type} (m : M A) (f : A -> M B) : M B :=
  fun s =>
    let '(a, s1, t1) := m s in
    let '(b, s2, t2) := f a s1 in
    (b, s2, t1 ++ t2).

Notation "x <- m ;; k" := (bind m (fun x => k))
  (at level 200, m at level 100, k at level 200, right associativity).
Notation "m ;; k" := (bind m (fun _ => k))
  (at level 200, k at level 200, right associativity).

Definition get_handle : M pcap_t := fun s => (handle s, s, []).

Definition get_errno : M Z := fun s => (errno s, s, []).

Definition modify_handle (f : pcap_t -> pcap_t) : M unit :=
  fun s => (tt, Build_state (f (handle s)) (errno s) (kernel s), []).

Definition modify_priv (f : pcap_haiku -> pcap_haiku) : M unit :=
  modify_handle (fun h => set_priv (f (priv h)) h).

(** A failing call leaves its error code in [errno]. *)
Definition errno_after (r e : Z) (s : state K) : Z :=
  if r <? 0 then e else errno s.

Definition socket (af type protocol : Z) : M Z := fun s =>
  let '(r, e, k) := sys_socket af type protocol (kernel s) in
  (r, Build_state (handle s) (errno_after r e s) k, [EvSocket af r]).

(** [ioctl(fd, op, &handlep->ifreq, sizeof(struct ifreq))]: every request
    of the file goes through the handle's one request record. *)
Definition submitted_flags (op : ioctl_op) (req : struct_ifreq) : Z :=
  match op with
  | SIOCSIFFLAGS => ifr_flags req
  | _ => 0
  end.

Definition ioctl (fd : Z) (op : ioctl_op) : M Z := fun s =>
  let req := ifreq (priv (handle s)) in
  let '(r, e, req', k) := sys_ioctl fd op req (kernel s) in
  (r, Build_state (set_priv (set_ifreq req' (priv (handle s))) (handle s))
                  (errno_after r e s) k,
   [EvIoctl fd op (submitted_flags op req) r]).

Definition close (fd : Z) : M unit := fun s =>
  (tt, Build_state (handle s) (errno s) (sys_close fd (kernel s)),
   [EvClose fd]).

Definition malloc (size : Z) : M (option (list byte)) := fun s =>
  let '(p, e, k) := sys_malloc size (kernel s) in
  (p, Build_state (handle s)
                  (match p with None => e | Some _ => errno s end) k,
   [EvMalloc size]).

Definition real_time_clock_usecs : M Z := fun s =>
  let '(ts, k) := sys_real_time_clock_usecs (kernel s) in
  (ts, Build_state (handle s) (errno s) k, [EvClock ts]).

(** The memory [handle->buffer + handle->offset] points at. *)
Definition buffer_at_offset (h : pcap_t) : list byte :=
  skipn (Z.to_nat (offset h))
        (match buffer h with Some b => b | None => [] end).

Definition store_at_offset (data : list byte) (h : pcap_t) : pcap_t :=
  match buffer h with
  | Some b => set_buffer (Some (firstn (Z.to_nat (offset h)) b ++ data)) h
  | None => h
  end.

(** [recvfrom(handle->fd, buffer, handle->bufsize, MSG_TRUNC, ...)]. *)
Definition recvfrom : M Z := fun s =>
  let h := handle s in
  let '(r, e, data, k) :=
    sys_recvfrom (fd h) (buffer_at_offset h) (bufsize h) MSG_TRUNC
                 (kernel s) in
  (r, Build_state (store_at_offset data h) (errno_after r e s) k,
   [EvRecvfrom (fd h) (bufsize h) r]).

Definition filter (insns : list bpf_insn) (pkt : list byte)
    (snaplen wirelen : Z) : M Z := fun s =>
  let r := pcapint_filter insns pkt snaplen wirelen in
  (r, s, [EvFilter insns pkt snaplen wirelen r]).

(** The user's callback runs outside the handle: it is recorded and may
    change the world around the process. *)
Definition pcap_handler (U : Type) : Type :=
  U -> pcap_pkthdr -> list byte -> K -> K.

Definition call {U : Type} (callback : pcap_handler U) (userdata : U)
    (hdr : pcap_pkthdr) (pkt : list byte) : M unit := fun s =>
  (tt, Build_state (handle s) (errno s) (callback userdata hdr pkt (kernel s)),
   [EvCallback hdr pkt]).

(** ** The functions of [pcap-haiku.c] *)

(** [dgram_socket], lines 126-136.  Both callers modelled here pass
    [handle->errbuf]. *)
Definition dgram_socket (af : Z) : M Z :=
  r <- socket af SOCK_DGRAM 0 ;;
  if r <? 0 then
    e <- get_errno ;;
    modify_handle (set_errbuf (pcapint_fmt_errmsg_for_errno e "socket")) ;;
    pure PCAP_ERROR
  else pure r.

(** [ioctl_ifreq], lines 139-149, on [&handlep->ifreq] and
    [handle->errbuf]. *)
Definition ioctl_ifreq (fd : Z) (op : ioctl_op) (name : string) : M Z :=
  r <- ioctl fd op ;;
  if r <? 0 then
    e <- get_errno ;;
    modify_handle (set_errbuf (pcapint_fmt_errmsg_for_errno e name)) ;;
    pure PCAP_ERROR
  else pure 0.

(** [get_promisc], lines 152-161. *)
Definition get_promisc : M Z :=
  h <- get_handle ;;
  r <- ioctl_ifreq (aux_socket (priv h)) SIOCGIFFLAGS "SIOCGIFFLAGS" ;;
  if r <? 0 then pure PCAP_ERROR
  else
    h <- get_handle ;;
    pure (if Z.land (ifr_flags (ifreq (priv h))) IFF_PROMISC =? 0
          then 0 else 1).

(** [set_promisc], lines 164-175. *)
Definition set_promisc (enable : Z) : M Z :=
  modify_priv (fun p =>
    set_ifreq
      (set_ifr_flags
         (if enable =? 0
          then Z.land (ifr_flags (ifreq p)) (Z.lnot IFF_PROMISC)
          else Z.lor (ifr_flags (ifreq p)) IFF_PROMISC)
         (ifreq p)) p) ;;
  h <- get_handle ;;
  ioctl_ifreq (aux_socket (priv h)) SIOCSIFFLAGS "SIOCSIFFLAGS".

(** [pcap_cleanup_haiku], lines 178-200. *)
Definition pcap_cleanup_haiku : M unit :=
  h <- get_handle ;;
  (if 0 <=? fd h then
     close (fd h) ;;
     modify_handle (set_fd (-1)) ;;
     modify_handle (set_selectable_fd (-1))
   else pure tt) ;;
  h <- get_handle ;;
  if 0 <=? aux_socket (priv h) then
    (if negb (opt_promisc h =? 0) && (orig_promisc (priv h) =? 0) then
       g <- get_promisc ;;
       if negb (g =? 0) then
         _ <- set_promisc 0 ;; pure tt
       else pure tt
     else pure tt) ;;
    close (aux_socket (priv h)) ;;
    modify_priv (set_aux_socket (-1))
  else pure tt.

(** [pcap_inject_haiku], lines 203-212. *)
Definition pcap_inject_haiku : M Z :=
  modify_handle (set_errbuf
    (substring 0 (Z.to_nat (PCAP_ERRBUF_SIZE - 1))
       "Sending packets isn't supported yet")) ;;
  pure PCAP_ERROR.

(** [pcap_stats_haiku], lines 215-230.  [stats] is the caller's record:
    the function answers with its return value and the record's new
    contents. *)
Definition pcap_stats_haiku (stats : pcap_stat) : M (Z * pcap_stat) :=
  h <- get_handle ;;
  let stats := stat (priv h) in
  r <- ioctl_ifreq (aux_socket (priv h)) SIOCGIFSTATS "SIOCGIFSTATS" ;;
  if r <? 0 then pure (PCAP_ERROR, stats)
  else
    h <- get_handle ;;
    pure (0, {| ps_recv := ps_recv stats; ps_drop := ps_drop stats;
                ps_ifdrop :=
                  wrap32 (ifr_stats_receive_dropped (ifreq (priv h))
                          - ps_ifdrop stats) |}).

(** [pcap_activate_haiku], lines 233-349.  The C function leaves through
    [return] or through [goto error], which runs the cleanup and returns
    the local [ret].  It is written here in two parts: everything up to
    the allocated buffer (lines 239-335), answering [Some ret] for a
    [goto error] and [None] when control falls through, and then the
    promiscuous-mode step (lines 337-345). *)
Inductive exit : Type :=
| Goto_error
| Return (v : Z).

Definition activate_setup (ret : Z) : M (option Z) :=
  (* we need a socket to talk to the networking stack *)
  a <- dgram_socket AF_INET ;;
  modify_priv (set_aux_socket a) ;;
  if a <? 0 then pure (Some ret) else
  r <- ioctl_ifreq a SIOCGIFSTATS "SIOCGIFSTATS" ;;
  if r <? 0 then
    e <- get_errno ;;
    pure (Some (if e =? EINVAL then PCAP_ERROR_NO_SUCH_DEVICE else ret))
  else
  modify_priv (fun p =>
    set_stat {| ps_recv := ps_recv (stat p); ps_drop := ps_drop (stat p);
                ps_ifdrop := wrap32 (ifr_stats_receive_dropped (ifreq p)) |}
             p) ;;
  (* get link level interface for this interface *)
  f <- dgram_socket AF_LINK ;;
  modify_handle (set_fd f) ;;
  if f <? 0 then pure (Some ret) else
  r <- ioctl_ifreq f SIOCGIFADDR "SIOCGIFADDR" ;;
  if r <? 0 then pure (Some ret) else
  h <- get_handle ;;
  let sdl := ifr_addr (ifreq (priv h)) in
  if negb (sdl_family sdl =? AF_LINK) then
    modify_handle (set_errbuf
      (snprintf_errbuf (msg_wrong_af (sdl_family sdl) (opt_device h)))) ;;
    pure (Some ret)
  else
  match (if sdl_type sdl =? IFT_ETHER then Some DLT_EN10MB
         else if (sdl_type sdl =? IFT_TUNNEL) || (sdl_type sdl =? IFT_LOOP)
              then Some DLT_RAW
              else None) with
  | None =>
    modify_handle (set_errbuf
      (snprintf_errbuf (msg_unknown_type (sdl_type sdl) (opt_device h)))) ;;
    pure (Some ret)
  | Some dlt =>
  modify_handle (set_linktype dlt) ;;
  (* start monitoring *)
  r <- ioctl_ifreq f SIOCSPACKETCAP "SIOCSPACKETCAP" ;;
  if r <? 0 then pure (Some ret) else
  modify_handle install_ops ;;
  modify_handle (fun h =>
    if (snapshot h <=? 0) || (snapshot h >? MAXIMUM_SNAPLEN)
    then set_snapshot MAXIMUM_SNAPLEN h else h) ;;
  modify_handle (set_bufsize 65536) ;;
  (* allocate buffer for monitoring the device *)
  h <- get_handle ;;
  b <- malloc (bufsize h) ;;
  modify_handle (set_buffer b) ;;
  match b with
  | None =>
    e <- get_errno ;;
    modify_handle (set_errbuf
      (pcapint_fmt_errmsg_for_errno e "buffer malloc")) ;;
    pure (Some ret)
  | Some _ =>
  modify_handle (set_offset 0) ;;
  pure None
  end
  end.

Definition activate_promisc : M exit :=
  h <- get_handle ;;
  if negb (opt_promisc h =? 0) then
    (* Set promiscuous mode iff required, in any case remember the
       original state. *)
    g <- get_promisc ;;
    modify_priv (set_orig_promisc g) ;;
    if g <? 0 then pure Goto_error else
    if g =? 0 then
      r <- set_promisc 1 ;;
      if r <? 0 then pure (Return PCAP_WARNING_PROMISC_NOTSUP)
      else pure (Return 0)
    else pure (Return 0)
  else pure (Return 0).

Definition pcap_activate_haiku : M Z :=
  let ret := PCAP_ERROR in
  x <- activate_setup ret ;;
  match x with
  | Some ret => pcap_cleanup_haiku ;; pure ret
  | None =>
    y <- activate_promisc ;;
    match y with
    | Goto_error => pcap_cleanup_haiku ;; pure ret
    | Return v => pure v
    end
  end.

(** [pcap_read_haiku], lines 53-123, without its unused [maxPackets].
    The [do ... while] loop of lines 62-71 retries for as long as the
    kernel reports an interrupted call; [fuel] bounds the number of
    rounds. *)
Inductive received : Type :=
| Break
| Received (bytesReceived : Z).

Fixpoint receive (fuel : nat) (s : state K)
    : option (received * state K * list event) :=
  match fuel with
  | O => None
  | S fuel' =>
    if negb (break_loop (handle s) =? 0) then
      Some (Break,
            Build_state (set_break_loop 0 (handle s)) (errno s) (kernel s),
            [])
    else
      let '(bytesReceived, s1, t1) := recvfrom s in
      if (bytesReceived <? 0) && (errno s1 =? B_INTERRUPTED) then
        match receive fuel' s1 with
        | Some (r, s2, t2) => Some (r, s2, t1 ++ t2)
        | None => None
        end
      else Some (Received bytesReceived, s1, t1)
  end.

(** Lines 73-122, after the loop has left with [bytesReceived]. *)
Definition deliver {U : Type} (bytesReceived : Z)
    (callback : pcap_handler U) (userdata : U) : M Z :=
  ts <- real_time_clock_usecs ;;
  if bytesReceived <? 0 then
    e <- get_errno ;;
    if e =? B_WOULD_BLOCK then
      (* there is no packet for us *)
      pure 0
    else
      modify_handle (set_errbuf (pcapint_fmt_errmsg_for_errno e "recvfrom")) ;;
      pure PCAP_ERROR
  else
  modify_priv (fun p =>
    set_stat {| ps_recv := wrap32 (ps_recv (stat p) + 1);
                ps_drop := ps_drop (stat p);
                ps_ifdrop := ps_ifdrop (stat p) |} p) ;;
  h <- get_handle ;;
  if bytesReceived >? bufsize h then
    modify_handle (set_errbuf
      (snprintf_errbuf (msg_recv_exceeds bytesReceived (bufsize h)))) ;;
    pure PCAP_ERROR
  else
  let captureLength := wrap32 bytesReceived in
  (* run the packet filter *)
  rejected <-
    match fcode_bf_insns h with
    | Some insns =>
      v <- filter insns (buffer_at_offset h) captureLength captureLength ;;
      pure (v =? 0)
    | None => pure false
    end ;;
  if (rejected : bool) then
    (* packet got rejected *)
    modify_priv (fun p =>
      set_stat {| ps_recv := ps_recv (stat p);
                  ps_drop := wrap32 (ps_drop (stat p) + 1);
                  ps_ifdrop := ps_ifdrop (stat p) |} p) ;;
    pure 0
  else
  (* fill in pcap_header *)
  let header :=
    {| ts_tv_sec := Z.quot ts 1000000;
       ts_tv_usec := Z.rem ts 1000000;
       caplen := if captureLength <=? wrap32 (snapshot h)
                 then captureLength else wrap32 (snapshot h);
       len := captureLength |} in
  (* Call the user supplied callback function *)
  call callback userdata header (buffer_at_offset h) ;;
  pure 1.

Definition pcap_read_haiku {U : Type} (fuel : nat)
    (callback : pcap_handler U) (userdata : U) (s : state K)
    : option (Z * state K * list event) :=
  match receive fuel s with
  | None => None
  | Some (Break, s1, t1) => Some (PCAP_ERROR_BREAK, s1, t1)
  | Some (Received bytesReceived, s1, t1) =>
    let '(r, s2, t2) := deliver bytesReceived callback userdata s1 in
    Some (r, s2, t1 ++ t2)
  end.

(** [pcapint_create_interface], lines 398-422, after its two checks of
    the device name: [handle] is what [PCAP_CREATE_COMMON] (a macro of
    [pcap-int.h], not under src/) has just allocated. *)
Definition pcapint_create_interface (device : string) (handle : pcap_t)
    : pcap_t :=
  let handle := set_activate_op Fn_pcap_activate_haiku handle in
  set_priv
    (set_ifreq (set_ifr_name device (ifreq (priv handle)))
       (set_aux_socket (-1) (priv handle)))
    handle.

End Model.

(** ** A simulated interface

    One assignment of the header constants and one small kernel, for
    running the model on concrete sessions.  The theorems about the code
    never look at either. *)
Module Sim.

#[export] Instance headers : SysHeaders := {|
  AF_INET := 1;
  AF_LINK := 4;
  SOCK_DGRAM := 2;
  MSG_TRUNC := 16;
  IFF_PROMISC := 256;
  IFT_ETHER := 6;
  IFT_TUNNEL := 131;
  IFT_LOOP := 24;
  EINVAL := -2147483643;
  B_INTERRUPTED := -2147483638;
  B_WOULD_BLOCK := -2147483637;
  DLT_EN10MB := 1;
  DLT_RAW := 12
|}.

Definition EIO : Z := -2147483647.

(** A filter that accepts exactly the packets whose first byte is not
    zero, and a formatter that keeps the label and the error code. *)
#[export] Instance lib : PcapInt := {|
  pcapint_filter := fun _ pkt _ wirelen =>
    match pkt with
    | b :: _ => if Byte.eqb b Byte.x00 then 0 else wirelen
    | [] => 0
    end;
  pcapint_fmt_errmsg_for_errno := fun e label =>
    (label ++ ": error " ++ fmt_d e)%string
|}.

(** What the next [recvfrom] finds: a datagram, or a failure. *)
Inductive pending : Type :=
| Datagram (data : list byte)
| Failure (e : Z).

(** The interface as the kernel holds it. *)
Record iface : Type := {
  next_fd : Z;
  flags : Z;
  family : Z;
  type : Z;
  dropped : Z;
  refused : list (ioctl_op * Z);
  queue : list pending;
  clock : Z;
  delivered : nat
}.

Definition refusal (op : ioctl_op) (i : iface) : option Z :=
  match find (fun x => ioctl_op_eqb (fst x) op) (refused i) with
  | Some (_, e) => Some e
  | None => None
  end.

Definition with_flags (v : Z) (i : iface) : iface :=
  {| next_fd := next_fd i; flags := v; family := family i; type := type i;
     dropped := dropped i; refused := refused i; queue := queue i;
     clock := clock i; delivered := delivered i |}.

Definition with_refused (v : list (ioctl_op * Z)) (i : iface) : iface :=
  {| next_fd := next_fd i; flags := flags i; family := family i;
     type := type i; dropped := dropped i; refused := v; queue := queue i;
     clock := clock i; delivered := delivered i |}.

Definition with_queue (v : list pending) (i : iface) : iface :=
  {| next_fd := next_fd i; flags := flags i; family := family i;
     type := type i; dropped := dropped i; refused := refused i; queue := v;
     clock := clock i; delivered := delivered i |}.

Definition sim_socket (af ty proto : Z) (i : iface) : Z * Z * iface :=
  (next_fd i, 0,
   {| next_fd := next_fd i + 1; flags := flags i; family := family i;
      type := type i; dropped := dropped i; refused := refused i;
      queue := queue i; clock := clock i; delivered := delivered i |}).

Definition sim_ioctl (fd : Z) (op : ioctl_op) (req : struct_ifreq) (i : iface)
    : Z * Z * struct_ifreq * iface :=
  match refusal op i with
  | Some e => (-1, e, req, i)
  | None =>
    match op with
    | SIOCGIFFLAGS => (0, 0, set_ifr_flags (flags i) req, i)
    | SIOCSIFFLAGS => (0, 0, req, with_flags (ifr_flags req) i)
    | SIOCGIFSTATS =>
      (0, 0,
       {| ifr_name := ifr_name req; ifr_flags := ifr_flags req;
          ifr_addr := ifr_addr req;
          ifr_stats_receive_dropped := dropped i |}, i)
    | SIOCGIFADDR =>
      (0, 0,
       {| ifr_name := ifr_name req; ifr_flags := ifr_flags req;
          ifr_addr := {| sdl_family := family i; sdl_type := type i |};
          ifr_stats_receive_dropped := ifr_stats_receive_dropped req |}, i)
    | SIOCSPACKETCAP => (0, 0, req, i)
    end
  end.

(** With [MSG_TRUNC] the call answers the datagram's own length and
    stores as much of it as the caller has room for.  The simulation
    keeps track of the bytes a call has stored and of nothing behind
    them, so that freshly allocated memory is the empty list. *)
Definition sim_recvfrom (fd : Z) (buf : list byte) (size flags : Z) (i : iface)
    : Z * Z * list byte * iface :=
  match queue i with
  | [] => (-1, B_WOULD_BLOCK, buf, i)
  | Failure e :: q => (-1, e, buf, with_queue q i)
  | Datagram data :: q =>
    (Z.of_nat (List.length data), 0, firstn (Z.to_nat size) data,
     with_queue q i)
  end.

Definition tick (i : iface) : Z * iface :=
  (clock i,
   {| next_fd := next_fd i; flags := flags i; family := family i;
      type := type i; dropped := dropped i; refused := refused i;
      queue := queue i; clock := clock i + 1; delivered := delivered i |}).

#[export] Instance sim_kernel : Kernel iface := {|
  sys_socket := sim_socket;
  sys_ioctl := sim_ioctl;
  sys_close := fun _ i => i;
  sys_recvfrom := sim_recvfrom;
  sys_malloc := fun size i => (Some [], 0, i);
  sys_real_time_clock_usecs := tick
|}.

(** The callback of the examples counts the packets it is given. *)
Definition count_packets : pcap_handler unit :=
  fun _ _ _ i =>
    {| next_fd := next_fd i; flags := flags i; family := family i;
       type := type i; dropped := dropped i; refused := refused i;
       queue := queue i; clock := clock i; delivered := S (delivered i) |}.

(** An Ethernet interface with nothing pending. *)
Definition ether : iface :=
  {| next_fd := 3; flags := 1; family := 4; type := 6; dropped := 7;
     refused := []; queue := []; clock := 1700000000123456; delivered := 0 |}.

(** What [PCAP_CREATE_COMMON] hands back: zeroed memory, descriptors
    unset, no operation installed. *)
Definition fresh : pcap_t :=
  {| buffer := None; offset := 0; break_loop := 0; fd := -1;
     selectable_fd := -1; bufsize := 0; snapshot := 0; linktype := 0;
     errbuf := EmptyString; opt_device := EmptyString; opt_promisc := 0;
     fcode_bf_insns := None;
     priv := {| stat := {| ps_recv := 0; ps_drop := 0; ps_ifdrop := 0 |};
                aux_socket := 0;
                ifreq := {| ifr_name := EmptyString; ifr_flags := 0;
                            ifr_addr := {| sdl_family := 0; sdl_type := 0 |};
                            ifr_stats_receive_dropped := 0 |};
                orig_promisc := 0 |};
     activate_op := Fn_not_initialized; read_op := Fn_not_initialized;
     setfilter_op := Fn_not_initialized; inject_op := Fn_not_initialized;
     stats_op := Fn_not_initialized; cleanup_op := Fn_not_initialized;
     getnonblock_op := Fn_not_initialized;
     setnonblock_op := Fn_not_initialized |}.

(** [pcap_create] followed by [pcap_set_promisc] and [pcap_set_snaplen]. *)
Definition created (device : string) (promisc snaplen : Z) : pcap_t :=
  set_snapshot snaplen
    (set_opt_promisc promisc
       (set_opt_device device (pcapint_create_interface device fresh))).

Definition boot (h : pcap_t) (i : iface) : state iface :=
  Build_state h 0 i.

End Sim.

(** ** Sessions on the simulated interface *)
Module Scenario.

Import Sim.
Local Open Scope string_scope.

(** Another sniffer has put the interface into promiscuous mode (flags
    257 are "up" and "promiscuous"), and the kernel refuses the
    statistics request.  The session asks for promiscuous mode. *)
Definition busy_without_stats : iface :=
  with_refused [(SIOCGIFSTATS, EIO)] (with_flags 257 ether).

Definition early_failure : state iface :=
  boot (created "eth0" 1 0) busy_without_stats.

(** A session that activated with promiscuous mode and turned the flag
    on itself.  Before its cleanup the interface is taken down, flags 0,
    and the kernel starts to refuse the flags query. *)
Definition activated_promisc : state iface :=
  snd (fst (pcap_activate_haiku (boot (created "eth0" 1 0) ether))).

Definition flags_unreadable : state iface :=
  Build_state (handle activated_promisc) (errno activated_promisc)
    (with_refused [(SIOCGIFFLAGS, EIO)]
       (with_flags 0 (kernel activated_promisc))).

(** An interface of a type the code does not know (23).  Another
    program has it in promiscuous mode, and the kernel refuses to change
    its flags. *)
Definition ppp : iface :=
  {| next_fd := 3; flags := 257; family := 4; type := 23; dropped := 0;
     refused := [(SIOCSIFFLAGS, EIO)]; queue := [];
     clock := 1700000000123456; delivered := 0 |}.

Definition unknown_type : state iface :=
  boot (created "ppp0" 1 0) ppp.

(** A session activated without promiscuous mode, with snapshot length
    [snaplen], then given a filter and a queue of pending datagrams. *)
Definition accept_some : list bpf_insn := [(6, 0, 0, 262144)].

Definition activated (snaplen : Z) : state iface :=
  snd (fst (pcap_activate_haiku (boot (created "eth0" 0 snaplen) ether))).

Definition install (insns : option (list bpf_insn)) (s : state iface)
    : state iface :=
  Build_state (set_fcode_bf_insns insns (handle s)) (errno s) (kernel s).

Definition arrive (q : list pending) (s : state iface) : state iface :=
  Build_state (handle s) (errno s) (with_queue q (kernel s)).

Definition capturing (snaplen : Z) (q : list pending) : state iface :=
  arrive q (install (Some accept_some) (activated snaplen)).

(** A datagram one byte longer than the buffer. *)
Definition oversize : state iface :=
  capturing 0 [Datagram (repeat Byte.x01 (Z.to_nat 65537))].

(** Three datagrams, the second of which the filter rejects, with one
    interrupted call on the way. *)
Definition three_pending : state iface :=
  capturing 0 [Datagram [Byte.x01; Byte.x02];
               Failure B_INTERRUPTED;
               Datagram [Byte.x00; Byte.x02; Byte.x03];
               Datagram [Byte.x04]].

(** A datagram of 100 bytes on a session with snapshot length 64. *)
Definition long_frame : state iface :=
  capturing 64 [Datagram (repeat Byte.x01 (Z.to_nat 100))].

(** A datagram the filter rejects. *)
Definition unwanted : state iface :=
  capturing 0 [Datagram [Byte.x00; Byte.x01]].

(** An interface that cannot be put into promiscuous mode. *)
Definition no_promisc : state iface :=
  boot (created "eth0" 1 0) (with_refused [(SIOCSIFFLAGS, EIO)] ether).

(** An interface that refuses to be put into capture mode. *)
Definition packetcap_refused : state iface :=
  boot (created "eth0" 0 0) (with_refused [(SIOCSPACKETCAP, EIO)] ether).

(** An activated session whose interface stops answering the statistics
    request. *)
Definition stats_refused : state iface :=
  Build_state (handle (activated 0)) (errno (activated 0))
    (with_refused [(SIOCGIFSTATS, EIO)] (kernel (activated 0))).

(** The pieces of two of the runs above that the statements name. *)
Definition long_frame_received : state iface :=
  match receive 1 long_frame with
  | Some (_, s1, _) => s1
  | None => long_frame
  end.

Definition unwanted_received : state iface :=
  match receive 1 unwanted with
  | Some (_, s1, _) => s1
  | None => unwanted
  end.

Definition no_promisc_setup : state iface :=
  snd (fst (activate_setup PCAP_ERROR no_promisc)).

Definition no_promisc_query : Z * Z * struct_ifreq * iface :=
  sys_ioctl (aux_socket (priv (handle no_promisc_setup))) SIOCGIFFLAGS
    (ifreq (priv (handle no_promisc_setup))) (kernel no_promisc_setup).

End Scenario.

(** ** Vocabulary of the properties *)

Definition is_callback (e : event) : bool :=
  match e with EvCallback _ _ => true | _ => false end.

Definition is_filter (e : event) : bool :=
  match e with EvFilter _ _ _ _ _ => true | _ => false end.

Definition is_rejection (e : event) : bool :=
  match e with EvFilter _ _ _ _ r => r =? 0 | _ => false end.

(** A read and a write of the interface flags, where the promiscuous
    flag lives. *)
Definition is_get_flags (e : event) : bool :=
  match e with EvIoctl _ SIOCGIFFLAGS _ _ => true | _ => false end.

Definition is_set_flags (e : event) : bool :=
  match e with EvIoctl _ SIOCSIFFLAGS _ _ => true | _ => false end.

(** How many of the events satisfy [p]. *)
Definition count (p : event -> bool) (t : list event) : nat :=
  List.length (List.filter p t).

Section Vocabulary.

Context {sys : SysHeaders} {lib : PcapInt} {K : Type} {kern : Kernel K}.

(** [n] calls of the read operation in a row. *)
Fixpoint read_n {U : Type} (fuel n : nat) (callback : pcap_handler U)
    (userdata : U) (s : state K) : option (list Z * state K * list event) :=
  match n with
  | O => Some ([], s, [])
  | S n' =>
    match pcap_read_haiku fuel callback userdata s with
    | None => None
    | Some (r, s1, t1) =>
      match read_n fuel n' callback userdata s1 with
      | None => None
      | Some (rs, s2, t2) => Some (r :: rs, s2, t1 ++ t2)
      end
    end
  end.

(** Each of [n] calls in a row leaves its receive loop with a datagram
    that fits the buffer. *)
Fixpoint all_received {U : Type} (fuel n : nat) (callback : pcap_handler U)
    (userdata : U) (s : state K) : Prop :=
  match n with
  | O => True
  | S n' =>
    match receive fuel s with
    | Some (Received bytesReceived, s1, _) =>
      0 <= bytesReceived <= bufsize (handle s1) /\
      all_received fuel n' callback userdata
        (snd (fst (deliver bytesReceived callback userdata s1)))
    | _ => False
    end
  end.

(** The datagrams that [n] calls in a row receive, each with its length:
    what the buffer holds when the receive loop of a call has left. *)
Fixpoint datagrams {U : Type} (fuel n : nat) (callback : pcap_handler U)
    (userdata : U) (s : state K) : list (list byte * Z) :=
  match n with
  | O => []
  | S n' =>
    match receive fuel s with
    | Some (Received bytesReceived, s1, _) =>
      (buffer_at_offset (handle s1), bytesReceived)
      :: datagrams fuel n' callback userdata
           (snd (fst (deliver bytesReceived callback userdata s1)))
    | _ => []
    end
  end.

(** A compiled filter rejects a datagram when [pcapint_filter] answers 0
    on its bytes and its length; where no filter is installed nothing is
    rejected. *)
Definition rejects (fcode : option (list bpf_insn)) (d : list byte * Z)
    : bool :=
  match fcode with
  | Some insns => pcapint_filter insns (fst d) (snd d) (snd d) =? 0
  | None => false
  end.

(** How many of the datagrams the filter rejects. *)
Definition rejected (fcode : option (list bpf_insn))
    (ds : list (list byte * Z)) : nat :=
  List.length (List.filter (rejects fcode) ds).

(** The states a session goes through: created, then any run of
    activation, reads, statistics queries and cleanups, while the filter,
    the break flag and the world around the process may change between
    calls. *)
Inductive session : state K -> Prop :=
| session_created (device : string) (h : pcap_t) (e : Z) (k : K) :
    fd h = -1 ->
    read_op h <> Fn_pcap_read_haiku ->
    session (Build_state (pcapint_create_interface device h) e k)
| session_activate (s : state K) :
    session s ->
    session (snd (fst (pcap_activate_haiku s)))
| session_read (U : Type) (fuel : nat) (callback : pcap_handler U)
    (userdata : U) (s s' : state K) (r : Z) (t : list event) :
    session s ->
    pcap_read_haiku fuel callback userdata s = Some (r, s', t) ->
    session s'
| session_stats (stats : pcap_stat) (s : state K) :
    session s ->
    session (snd (fst (pcap_stats_haiku stats s)))
| session_cleanup (s : state K) :
    session s ->
    session (snd (fst (pcap_cleanup_haiku s)))
| session_setfilter (insns : option (list bpf_insn)) (s : state K) :
    session s ->
    session (Build_state (set_fcode_bf_insns insns (handle s))
                         (errno s) (kernel s))
| session_breakloop (s : state K) :
    session s ->
    session (Build_state (set_break_loop 1 (handle s)) (errno s) (kernel s))
| session_world (e : Z) (k : K) (s : state K) :
    session s ->
    session (Build_state (handle s) e k).

(** The flags [set_promisc] submits. *)
Definition promisc_flags (enable flags : Z) : Z :=
  if enable =? 0 then Z.land flags (Z.lnot IFF_PROMISC)
  else Z.lor flags IFF_PROMISC.

(** The members of the handle that are neither a descriptor nor scratch
    space of a request (the request record, the error buffer) nor the
    remembered promiscuous state. *)
Definition same_session (h h' : pcap_t) : Prop :=
  buffer h' = buffer h /\ offset h' = offset h /\
  break_loop h' = break_loop h /\ bufsize h' = bufsize h /\
  snapshot h' = snapshot h /\ linktype h' = linktype h /\
  opt_device h' = opt_device h /\ opt_promisc h' = opt_promisc h /\
  fcode_bf_insns h' = fcode_bf_insns h /\
  stat (priv h') = stat (priv h) /\
  activate_op h' = activate_op h /\ read_op h' = read_op h /\
  setfilter_op h' = setfilter_op h /\ inject_op h' = inject_op h /\
  stats_op h' = stats_op h /\ cleanup_op h' = cleanup_op h /\
  getnonblock_op h' = getnonblock_op h /\
  setnonblock_op h' = setnonblock_op h.

(** The operation table as activation fills it. *)
Definition ops_installed (h : pcap_t) : Prop :=
  read_op h = Fn_pcap_read_haiku /\
  setfilter_op h = Fn_pcapint_install_bpf_program /\
  inject_op h = Fn_pcap_inject_haiku /\
  stats_op h = Fn_pcap_stats_haiku /\
  cleanup_op h = Fn_pcap_cleanup_haiku /\
  getnonblock_op h = Fn_pcapint_getnonblock_fd /\
  setnonblock_op h = Fn_pcapint_setnonblock_fd.

(** A session one can capture on: operations installed, both descriptors
    open, the buffer allocated, the snapshot length normalized. *)
Definition usable (h : pcap_t) : Prop :=
  ops_installed h /\
  0 <= fd h /\ selectable_fd h = fd h /\ 0 <= aux_socket (priv h) /\
  buffer h <> None /\ offset h = 0 /\ bufsize h = 65536 /\
  1 <= snapshot h <= MAXIMUM_SNAPLEN.

(** What every session state satisfies: a descriptor is open or marked
    closed, and a handle whose read operation is installed has the buffer
    size and the snapshot length that activation gives. *)
Definition session_inv (h : pcap_t) : Prop :=
  (fd h = -1 \/ 0 <= fd h) /\
  (aux_socket (priv h) = -1 \/ 0 <= aux_socket (priv h)) /\
  (read_op h = Fn_pcap_read_haiku ->
   bufsize h = 65536 /\ 1 <= snapshot h <= MAXIMUM_SNAPLEN).

End Vocabulary.

(** ** Creating a handle and finding devices

    The rest of [pcap-haiku.c]: the checks in front of the creation of a
    handle, and the callback that tells the device list whether an
    interface is connected. *)

(** The constants these functions take from [net/if.h] and
    [pcap/pcap.h], abstract like the others.  [IF_NAMESIZE] is the size
    of a character array, hence positive: the comparison of line 355,
    made by C in [size_t], is then the one on integers. *)
Class IfHeaders : Type := {
  IF_NAMESIZE : Z;
  IFF_LINK : Z;
  PCAP_IF_LOOPBACK : Z;
  PCAP_IF_CONNECTION_STATUS_CONNECTED : Z;
  PCAP_IF_CONNECTION_STATUS_DISCONNECTED : Z;
  PCAP_IF_CONNECTION_STATUS_NOT_APPLICABLE : Z;
  IF_NAMESIZE_positive : 0 < IF_NAMESIZE
}.

Definition msg_name_too_long (device : string) : string :=
  ("Interface name " ++ dquote ++ device ++ dquote ++ " is too long.")%string.

Definition msg_no_capture (device : string) : string :=
  ("Interface " ++ dquote ++ device ++ dquote ++
   " does not support capturing traffic.")%string.

(** The array [badversions] of [can_be_bound], lines 381-388. *)
Definition badversions : list string :=
  ["hrev56578"; "hrev55182"; "hrev54154"; "hrev52295"; "hrev44702"]%string.

(** The loop of lines 391-393: its [strncmp], over the length of the
    bad version, is 0 exactly when the bad version is a prefix of the
    version string. *)
Fixpoint scan_badversions (s : list string) (uts_version : string) : Z :=
  match s with
  | [] => 1
  | bad :: s' =>
    if String.prefix bad uts_version then 0
    else scan_badversions s' uts_version
  end.

(** [can_be_bound], lines 367-395.  [uts_version] is the version string
    [uname] reports; the call has no other effect the code looks at. *)
Definition can_be_bound (uts_version name : string) : Z :=
  if negb (String.eqb name "loop") then 1
  else scan_badversions badversions uts_version.

(** Some more counting over events: the descriptors a run opened, in
    order, and the descriptors it closed. *)
Definition opened (t : list event) : list Z :=
  flat_map (fun e => match e with
                     | EvSocket _ r => if r <? 0 then [] else [r]
                     | _ => []
                     end) t.

Definition closed (t : list event) : list Z :=
  flat_map (fun e => match e with EvClose fd => [fd] | _ => [] end) t.

(** The flags a run submitted with its flags-set requests. *)
Definition flags_written (t : list event) : list Z :=
  flat_map (fun e => match e with
                     | EvIoctl _ SIOCSIFFLAGS fl _ => [fl]
                     | _ => []
                     end) t.

Definition is_packetcap (e : event) : bool :=
  match e with EvIoctl _ SIOCSPACKETCAP _ _ => true | _ => false end.

Definition is_clock (e : event) : bool :=
  match e with EvClock _ => true | _ => false end.

(** The events of a read: a receive, the clock, the filter, the
    callback. *)
Definition is_read_event (e : event) : bool :=
  match e with
  | EvRecvfrom _ _ _ | EvClock _ | EvFilter _ _ _ _ _ | EvCallback _ _ => true
  | _ => false
  end.

Section Devices.

Context {sys : SysHeaders} {ifh : IfHeaders} {lib : PcapInt}
        {K : Type} {kern : Kernel K}.

(** [validate_ifname], lines 352-361: the return value and the error
    buffer afterwards. *)
Definition validate_ifname (device errbuf : string) : Z * string :=
  if Z.of_nat (String.length device) >=? IF_NAMESIZE
  then (PCAP_ERROR, snprintf_errbuf (msg_name_too_long device))
  else (0, errbuf).

(** [pcapint_create_interface], lines 398-422, from its first line.
    [allocated] is what [PCAP_CREATE_COMMON] returns, [None] for a null
    pointer, and [errno] what it leaves; the function answers with the
    handle, if any, and the error buffer. *)
Definition pcapint_create_interface_checked (uts_version device : string)
    (errorBuffer : string) (allocated : option pcap_t) (errno : Z)
    : option pcap_t * string :=
  let '(v, errorBuffer) := validate_ifname device errorBuffer in
  if v <? 0 then (None, errorBuffer)
  else if can_be_bound uts_version device =? 0 then
    (None, snprintf_errbuf (msg_no_capture device))
  else
    match allocated with
    | None => (None, pcapint_fmt_errmsg_for_errno errno "malloc")
    | Some handle =>
      (Some (pcapint_create_interface device handle), errorBuffer)
    end.

(** [dgram_socket] and [ioctl_ifreq] once more, for a caller that brings
    an error buffer and a request record of its own: the return value,
    the request record and the error buffer afterwards, [errno], the
    kernel and the events. *)
Definition dgram_socket_at (af : Z) (errbuf : string) (errno : Z) (k : K)
    : Z * string * Z * K * list event :=
  let '(r, e, k1) := sys_socket af SOCK_DGRAM 0 k in
  if r <? 0 then
    (PCAP_ERROR, pcapint_fmt_errmsg_for_errno e "socket", e, k1,
     [EvSocket af r])
  else (r, errbuf, errno, k1, [EvSocket af r]).

Definition ioctl_ifreq_at (fd : Z) (op : ioctl_op) (name : string)
    (req : struct_ifreq) (errbuf : string) (errno : Z) (k : K)
    : Z * struct_ifreq * string * Z * K * list event :=
  let '(r, e, req', k1) := sys_ioctl fd op req k in
  if r <? 0 then
    (PCAP_ERROR, req', pcapint_fmt_errmsg_for_errno e name, e, k1,
     [EvIoctl fd op (submitted_flags op req) r])
  else (0, req', errbuf, errno, k1,
        [EvIoctl fd op (submitted_flags op req) r]).

(** [get_if_flags], lines 425-463.  [flags] is [*flags] on entry and
    [req] what the local [struct ifreq] holds before its name is copied
    in; the function answers with its return value, [*flags] and the
    error buffer afterwards, [errno], the kernel and the events. *)
Definition get_if_flags (name : string) (flags : Z) (errbuf : string)
    (req : struct_ifreq) (errno : Z) (k : K)
    : Z * Z * string * Z * K * list event :=
  let '(v, errbuf) := validate_ifname name errbuf in
  if v <? 0 then (PCAP_ERROR, flags, errbuf, errno, k, [])
  else if negb (Z.land flags PCAP_IF_LOOPBACK =? 0)
          || String.prefix "tun" name || String.prefix "tap" name then
    (0, Z.lor flags PCAP_IF_CONNECTION_STATUS_NOT_APPLICABLE,
     errbuf, errno, k, [])
  else
    let '(fd, errbuf, errno, k, t1) :=
      dgram_socket_at AF_LINK errbuf errno k in
    if fd <? 0 then (PCAP_ERROR, flags, errbuf, errno, k, t1)
    else
      let req := set_ifr_name name req in
      let '(r, req, errbuf, errno, k, t2) :=
        ioctl_ifreq_at fd SIOCGIFFLAGS "SIOCGIFFLAGS" req errbuf errno k in
      if r <? 0 then
        (PCAP_ERROR, flags, errbuf, errno, sys_close fd k,
         t1 ++ t2 ++ [EvClose fd])
      else
        (0,
         Z.lor flags
           (if negb (Z.land (ifr_flags req) IFF_LINK =? 0)
            then PCAP_IF_CONNECTION_STATUS_CONNECTED
            else PCAP_IF_CONNECTION_STATUS_DISCONNECTED),
         errbuf, errno, sys_close fd k, t1 ++ t2 ++ [EvClose fd]).

End Devices.

(** One assignment of the new constants, and sessions for the examples
    of the second part. *)
Module Sim2.

Import Sim Scenario.
Local Open Scope string_scope.

#[export] Instance if_headers : IfHeaders := {|
  IF_NAMESIZE := 32;
  IFF_LINK := 4096;
  PCAP_IF_LOOPBACK := 1;
  PCAP_IF_CONNECTION_STATUS_CONNECTED := 16;
  PCAP_IF_CONNECTION_STATUS_DISCONNECTED := 32;
  PCAP_IF_CONNECTION_STATUS_NOT_APPLICABLE := 48;
  IF_NAMESIZE_positive := eq_refl
|}.

(** A session on the Ethernet interface that asks for a snapshot length
    of 64 and not for promiscuous mode, before its activation, and what
    the activation answers. *)
Definition plain : state iface := boot (created "eth0" 0 64) ether.

Definition plain_activation : Z * state iface * list event :=
  pcap_activate_haiku plain.

(** The same session activated, without a filter, with one datagram of
    three bytes pending; the state after the receive, and the whole
    read. *)
Definition unfiltered : state iface :=
  arrive [Datagram [Byte.x01; Byte.x02; Byte.x03]] (activated 64).

Definition unfiltered_received : state iface :=
  match receive 1 unfiltered with
  | Some (_, s1, _) => s1
  | None => unfiltered
  end.

Definition unfiltered_read : Z * state iface * list event :=
  match pcap_read_haiku 1 count_packets tt unfiltered with
  | Some x => x
  | None => (0, unfiltered, [])
  end.


(** A receive that fails with an input/output error. *)
Definition io_error : state iface := capturing 0 [Failure EIO].

Definition io_error_received : state iface :=
  match receive 1 io_error with
  | Some (_, s1, _) => s1
  | None => io_error
  end.

Definition oversize_received : state iface :=
  match receive 1 oversize with
  | Some (_, s1, _) => s1
  | None => oversize
  end.

(** What the activation of [early_failure] answers. *)
Definition failed_activation : Z * state iface * list event :=
  pcap_activate_haiku early_failure.

(** The state after the read of [unfiltered]. *)
Definition unfiltered_done : state iface := snd (fst unfiltered_read).


(** The interface had dropped 7 packets when the session was activated,
    and has dropped 12 by now. *)
Definition later_drops : state iface :=
  Build_state (handle (activated 0)) (errno (activated 0))
    {| next_fd := next_fd (kernel (activated 0));
       flags := flags (kernel (activated 0));
       family := family (kernel (activated 0));
       type := type (kernel (activated 0));
       dropped := 12;
       refused := refused (kernel (activated 0));
       queue := queue (kernel (activated 0));
       clock := clock (kernel (activated 0));
       delivered := delivered (kernel (activated 0)) |}.

End Sim2.

(** ** Properties *)

Section Properties.

Context {sys : SysHeaders} {lib : PcapInt} {K : Type} {kern : Kernel K}.

Ltac unfold_m :=
  unfold pcap_stats_haiku, pcap_cleanup_haiku, get_promisc, set_promisc,
    ioctl_ifreq, dgram_socket, call, filter, real_time_clock_usecs,
    bind, pure, get_handle, get_errno, modify_priv, modify_handle,
    close, ioctl, socket, malloc, errno_after in *.

Ltac kstep :=
  match goal with
  | H : sys_socket ?a ?b ?c ?k = _ |- context [sys_socket ?a ?b ?c ?k] =>
    rewrite H
  | H : sys_ioctl ?a ?b ?c ?k = _ |- context [sys_ioctl ?a ?b ?c ?k] =>
    rewrite H
  | |- context [sys_socket ?a ?b ?c ?k] =>
    destruct (sys_socket a b c k) as [[? ?] ?] eqn:?
  | |- context [sys_ioctl ?a ?b ?c ?k] =>
    destruct (sys_ioctl a b c k) as [[[? ?] ?] ?] eqn:?
  | |- context [sys_malloc ?a ?k] =>
    destruct (sys_malloc a k) as [[[?|] ?] ?]
  | |- context [sys_real_time_clock_usecs ?k] =>
    destruct (sys_real_time_clock_usecs k) as [? ?]
  | |- context [match fcode_bf_insns ?h with _ => _ end] =>
    destruct (fcode_bf_insns h) eqn:?
  | |- context [if ?c then _ else _] => destruct c eqn:?
  end; cbn.

(** *** The small functions *)

(** A request through [ioctl_ifreq] rewrites the request record and, when
    it fails, the error buffer; it answers [PCAP_ERROR] or 0. *)
Lemma ioctl_ifreq_run (fd0 : Z) (op : ioctl_op) (name : string)
    (s : state K) (r e : Z) (req : struct_ifreq) (k : K) :
  sys_ioctl fd0 op (ifreq (priv (handle s))) (kernel s) = (r, e, req, k) ->
  ioctl_ifreq fd0 op name s =
  (if r <? 0 then PCAP_ERROR else 0,
   Build_state
     (let h := set_priv (set_ifreq req (priv (handle s))) (handle s) in
      if r <? 0 then set_errbuf (pcapint_fmt_errmsg_for_errno e name) h
      else h)
     (if r <? 0 then e else errno s) k,
   [EvIoctl fd0 op (submitted_flags op (ifreq (priv (handle s)))) r]).
Proof.
  intros E. unfold_m. cbn. rewrite E. cbn.
  destruct (r <? 0) eqn:Hr; cbn; rewrite ?Hr; reflexivity.
Qed.

Lemma get_promisc_run (s : state K) (r e : Z) (req : struct_ifreq) (k : K) :
  sys_ioctl (aux_socket (priv (handle s))) SIOCGIFFLAGS
            (ifreq (priv (handle s))) (kernel s) = (r, e, req, k) ->
  get_promisc s =
  (if r <? 0 then PCAP_ERROR
   else if Z.land (ifr_flags req) IFF_PROMISC =? 0 then 0 else 1,
   Build_state
     (let h := set_priv (set_ifreq req (priv (handle s))) (handle s) in
      if r <? 0
      then set_errbuf (pcapint_fmt_errmsg_for_errno e "SIOCGIFFLAGS") h
      else h)
     (if r <? 0 then e else errno s) k,
   [EvIoctl (aux_socket (priv (handle s))) SIOCGIFFLAGS 0 r]).
Proof.
  intros E. unfold get_promisc, bind, get_handle, pure.
  rewrite (ioctl_ifreq_run _ _ _ _ _ _ _ _ E).
  destruct (r <? 0) eqn:Hr; cbn; reflexivity.
Qed.

Lemma set_promisc_run (enable : Z) (s : state K) (r e : Z)
    (req : struct_ifreq) (k : K) :
  let req0 := set_ifr_flags
                (promisc_flags enable (ifr_flags (ifreq (priv (handle s)))))
                (ifreq (priv (handle s))) in
  sys_ioctl (aux_socket (priv (handle s))) SIOCSIFFLAGS req0 (kernel s)
    = (r, e, req, k) ->
  set_promisc enable s =
  (if r <? 0 then PCAP_ERROR else 0,
   Build_state
     (let h := set_priv (set_ifreq req (priv (handle s))) (handle s) in
      if r <? 0
      then set_errbuf (pcapint_fmt_errmsg_for_errno e "SIOCSIFFLAGS") h
      else h)
     (if r <? 0 then e else errno s) k,
   [EvIoctl (aux_socket (priv (handle s))) SIOCSIFFLAGS
            (promisc_flags enable (ifr_flags (ifreq (priv (handle s))))) r]).
Proof.
  intros req0 E. unfold set_promisc, bind, get_handle, pure, modify_priv,
    modify_handle. cbn.
  erewrite ioctl_ifreq_run by (cbn; exact E).
  destruct (r <? 0) eqn:Hr; cbn; reflexivity.
Qed.

(** Cleanup on a handle whose descriptors are both closed does nothing. *)
Lemma cleanup_closed (s : state K) :
  fd (handle s) < 0 -> aux_socket (priv (handle s)) < 0 ->
  pcap_cleanup_haiku s = (tt, s, []).
Proof.
  intros H1 H2. unfold_m. cbn.
  destruct (0 <=? fd (handle s)) eqn:E1; [lia|]. cbn.
  destruct (0 <=? aux_socket (priv (handle s))) eqn:E2; [lia|].
  reflexivity.
Qed.

(** Cleanup marks every open descriptor closed and keeps the rest of the
    session. *)
Lemma cleanup_handle (s : state K) :
  let h := handle s in
  let h' := handle (snd (fst (pcap_cleanup_haiku s))) in
  fd h' = (if 0 <=? fd h then -1 else fd h) /\
  aux_socket (priv h') =
    (if 0 <=? aux_socket (priv h) then -1 else aux_socket (priv h)) /\
  orig_promisc (priv h') = orig_promisc (priv h) /\
  same_session h h'.
Proof.
  unfold same_session. unfold_m. cbn.
  repeat kstep; repeat split; reflexivity.
Qed.

Ltac zbool :=
  repeat match goal with
  | H : (_ <? _) = true |- _ => apply Z.ltb_lt in H
  | H : (_ <? _) = false |- _ => apply Z.ltb_ge in H
  | H : (_ <=? _) = true |- _ => apply Z.leb_le in H
  | H : (_ <=? _) = false |- _ => apply Z.leb_gt in H
  | H : (_ >? _) = true |- _ => rewrite Z.gtb_ltb in H; apply Z.ltb_lt in H
  | H : (_ >? _) = false |- _ => rewrite Z.gtb_ltb in H; apply Z.ltb_ge in H
  | H : (_ =? _) = true |- _ => apply Z.eqb_eq in H
  | H : (_ =? _) = false |- _ => apply Z.eqb_neq in H
  | H : negb _ = true |- _ => apply negb_true_iff in H
  | H : negb _ = false |- _ => apply negb_false_iff in H
  | H : (_ || _) = true |- _ => apply orb_true_iff in H
  | H : (_ || _) = false |- _ => apply orb_false_iff in H; destruct H
  | H : (_ && _) = true |- _ => apply andb_true_iff in H; destruct H
  | H : (_ && _) = false |- _ => apply andb_false_iff in H
  end.

(** With both descriptors open, a cleanup that has no flag to restore
    (promiscuous mode was not requested, or activation remembered the
    flag as already set, or as unknown) just closes the two. *)
Lemma cleanup_without_promisc (s : state K) :
  0 <= fd (handle s) ->
  0 <= aux_socket (priv (handle s)) ->
  opt_promisc (handle s) = 0 \/ orig_promisc (priv (handle s)) <> 0 ->
  pcap_cleanup_haiku s =
  (tt,
   Build_state
     (set_priv (set_aux_socket (-1) (priv (handle s)))
        (set_selectable_fd (-1) (set_fd (-1) (handle s))))
     (errno s)
     (sys_close (aux_socket (priv (handle s)))
        (sys_close (fd (handle s)) (kernel s))),
   [EvClose (fd (handle s)); EvClose (aux_socket (priv (handle s)))]).
Proof.
  intros Hfd Haux Hp. unfold_m. cbn.
  apply Z.leb_le in Hfd, Haux. rewrite Hfd. cbn. rewrite Haux.
  assert (Hc : negb (opt_promisc (handle s) =? 0)
               && (orig_promisc (priv (handle s)) =? 0) = false).
  { destruct Hp as [Hp|Hp].
    - apply Z.eqb_eq in Hp. rewrite Hp. reflexivity.
    - apply Z.eqb_neq in Hp. rewrite Hp. apply andb_false_r. }
  rewrite Hc. reflexivity.
Qed.

(** *** Activation up to the allocated buffer *)

(** The first part leaves for the error exit with the no-such-device code
    exactly when the control socket opened and the first request on it
    failed with [EINVAL]. *)
Lemma setup_no_such_device (s : state K) :
  fst (fst (activate_setup PCAP_ERROR s)) = Some PCAP_ERROR_NO_SUCH_DEVICE
  <->
  (let '(a, _, k1) := sys_socket AF_INET SOCK_DGRAM 0 (kernel s) in
   0 <= a /\
   let '(r, e, _, _) :=
     sys_ioctl a SIOCGIFSTATS (ifreq (priv (handle s))) k1 in
   r < 0 /\ e = EINVAL).
Proof.
  unfold activate_setup. unfold_m. cbn.
  repeat kstep; zbool;
    unfold PCAP_ERROR, PCAP_ERROR_NO_SUCH_DEVICE in *;
    (split; [ intros HH; try discriminate HH; try lia
            | intros HH; try reflexivity; try lia ]).
Qed.

Lemma setup_exits (s : state K) :
  let x := fst (fst (activate_setup PCAP_ERROR s)) in
  x = None \/ x = Some PCAP_ERROR \/ x = Some PCAP_ERROR_NO_SUCH_DEVICE.
Proof.
  unfold activate_setup. unfold_m. cbn.
  repeat kstep; auto.
Qed.

Lemma setup_inv (ret : Z) (s : state K) :
  session_inv (handle s) ->
  session_inv (handle (snd (fst (activate_setup ret s)))).
Proof.
  unfold session_inv, activate_setup. unfold_m. cbn. intros (Hfd & Haux & Hrd).
  repeat kstep; zbool; unfold PCAP_ERROR, MAXIMUM_SNAPLEN in *;
    (split; [lia | split; [lia | try exact Hrd; intros; lia]]).
Qed.

(** When control falls through the first part the session is usable, and
    what the caller configured is as it was. *)
Lemma setup_through (ret : Z) (s s1 : state K) (t1 : list event) :
  activate_setup ret s = (None, s1, t1) ->
  usable (handle s1) /\
  opt_promisc (handle s1) = opt_promisc (handle s) /\
  orig_promisc (priv (handle s1)) = orig_promisc (priv (handle s)).
Proof.
  intros E.
  assert (G : let '(x, s1, _) := activate_setup ret s in
              x = None ->
              usable (handle s1) /\
              opt_promisc (handle s1) = opt_promisc (handle s) /\
              orig_promisc (priv (handle s1))
                = orig_promisc (priv (handle s))).
  { clear E. unfold usable, ops_installed, activate_setup. unfold_m. cbn.
    repeat kstep; intros HH; try discriminate HH; zbool;
      unfold MAXIMUM_SNAPLEN in *;
      repeat split; try reflexivity; try discriminate; try lia. }
  rewrite E in G. apply G. reflexivity.
Qed.

(** *** The promiscuous-mode step *)

Lemma promisc_step_handle (s : state K) :
  let h := handle s in
  let h' := handle (snd (fst (activate_promisc s))) in
  fd h' = fd h /\ selectable_fd h' = selectable_fd h /\
  aux_socket (priv h') = aux_socket (priv h) /\
  same_session h h'.
Proof.
  unfold same_session, activate_promisc. unfold_m. cbn.
  repeat kstep; repeat split; reflexivity.
Qed.

Lemma promisc_step_exits (s : state K) :
  let y := fst (fst (activate_promisc s)) in
  y = Goto_error \/ y = Return 0 \/ y = Return PCAP_WARNING_PROMISC_NOTSUP.
Proof.
  unfold activate_promisc. unfold_m. cbn.
  repeat kstep; auto.
Qed.

(** *** The invariant of a session *)

Lemma session_inv_same (h h' : pcap_t) :
  same_session h h' ->
  (fd h' = -1 \/ 0 <= fd h') ->
  (aux_socket (priv h') = -1 \/ 0 <= aux_socket (priv h')) ->
  session_inv h -> session_inv h'.
Proof.
  unfold same_session, session_inv.
  intros (_ & _ & _ & Hb & Hs & _ & _ & _ & _ & _ & _ & Hr & _) Hfd Haux
    (_ & _ & Hrd).
  rewrite Hb, Hs, Hr. auto.
Qed.

Lemma cleanup_inv (s : state K) :
  session_inv (handle s) ->
  session_inv (handle (snd (fst (pcap_cleanup_haiku s)))).
Proof.
  intros Hi. destruct (cleanup_handle s) as (Hfd & Haux & _ & Hsame).
  apply (session_inv_same _ _ Hsame); [ | | exact Hi ].
  - rewrite Hfd. destruct Hi as (H1 & _). clear Hfd Haux Hsame.
    destruct (0 <=? _) eqn:E; zbool; lia.
  - rewrite Haux. destruct Hi as (_ & H2 & _). clear Hfd Haux Hsame.
    destruct (0 <=? _) eqn:E; zbool; lia.
Qed.

Lemma promisc_step_inv (s : state K) :
  session_inv (handle s) ->
  session_inv (handle (snd (fst (activate_promisc s)))).
Proof.
  intros Hi. destruct (promisc_step_handle s) as (Hfd & _ & Haux & Hsame).
  apply (session_inv_same _ _ Hsame); [ | | exact Hi ].
  - rewrite Hfd. apply Hi.
  - rewrite Haux. apply Hi.
Qed.

Lemma activate_inv (s : state K) :
  session_inv (handle s) ->
  session_inv (handle (snd (fst (pcap_activate_haiku s)))).
Proof.
  intros Hi. unfold pcap_activate_haiku, bind, pure.
  pose proof (setup_inv PCAP_ERROR s Hi) as H1.
  destruct (activate_setup PCAP_ERROR s) as [[x s1] t1]. cbn in H1.
  destruct x as [ret|].
  - pose proof (cleanup_inv s1 H1) as H2.
    destruct (pcap_cleanup_haiku s1) as [[u s2] t2]. exact H2.
  - pose proof (promisc_step_inv s1 H1) as H2.
    destruct (activate_promisc s1) as [[y s2] t2]. cbn in H2.
    destruct y as [|v].
    + pose proof (cleanup_inv s2 H2) as H3.
      destruct (pcap_cleanup_haiku s2) as [[u s3] t3]. exact H3.
    + exact H2.
Qed.

(** *** The read operation *)

Lemma count_app (p : event -> bool) (t1 t2 : list event) :
  count p (t1 ++ t2) = (count p t1 + count p t2)%nat.
Proof. unfold count. rewrite List.filter_app, List.length_app. reflexivity. Qed.

(** The receive loop changes only the break flag and the buffer, and
    talks to nobody but [recvfrom]. *)
Lemma receive_handle (fuel : nat) :
  forall (s s1 : state K) (r : received) (t : list event),
  receive fuel s = Some (r, s1, t) ->
  set_break_loop 0 (set_buffer None (handle s1))
    = set_break_loop 0 (set_buffer None (handle s)) /\
  List.filter is_callback t = [] /\ List.filter is_filter t = [].
Proof.
  induction fuel as [|fuel IH]; intros s s1 r t E; cbn in E.
  - discriminate E.
  - destruct (negb (break_loop (handle s) =? 0)).
    + inversion E; subst; cbn. repeat split.
    + unfold recvfrom in E.
      destruct (sys_recvfrom _ _ _ _ _) as [[[n e] data] k]. cbn in E.
      match type of E with
      | (if ?c then _ else _) = _ => destruct c
      end.
      * match type of E with
        | match receive fuel ?s0 with _ => _ end = _ =>
          destruct (receive fuel s0) as [[[r2 s2] t2]|] eqn:E2;
            [ | discriminate E]
        end.
        inversion E; subst. apply IH in E2. cbn in E2.
        destruct E2 as (Hh & Hc & Hf). cbn. rewrite Hc, Hf, Hh.
        unfold store_at_offset. destruct (buffer (handle s)); auto.
      * inversion E; subst; cbn.
        unfold store_at_offset. destruct (buffer (handle s)); auto.
Qed.

Lemma receive_same (fuel : nat) (s s1 : state K) (r : received)
    (t : list event) :
  receive fuel s = Some (r, s1, t) ->
  fd (handle s1) = fd (handle s) /\
  priv (handle s1) = priv (handle s) /\
  read_op (handle s1) = read_op (handle s) /\
  bufsize (handle s1) = bufsize (handle s) /\
  snapshot (handle s1) = snapshot (handle s) /\
  fcode_bf_insns (handle s1) = fcode_bf_insns (handle s) /\
  count is_callback t = 0%nat /\ count is_filter t = 0%nat.
Proof.
  intros E. apply receive_handle in E. destruct E as (Hh & Hc & Hf).
  unfold count. rewrite Hc, Hf.
  repeat split;
    [ apply (f_equal fd) in Hh | apply (f_equal priv) in Hh
    | apply (f_equal read_op) in Hh | apply (f_equal bufsize) in Hh
    | apply (f_equal snapshot) in Hh
    | apply (f_equal fcode_bf_insns) in Hh ]; exact Hh.
Qed.

(** Fuel only bounds the retries: a loop that has left leaves the same
    way with more of it. *)
Lemma receive_more_fuel (fuel : nat) :
  forall (fuel' : nat) (s : state K) (x : received * state K * list event),
  receive fuel s = Some x -> (fuel <= fuel')%nat ->
  receive fuel' s = Some x.
Proof.
  induction fuel as [|fuel IH]; intros fuel' s x E Hle; cbn in E.
  - discriminate E.
  - destruct fuel' as [|fuel']; [lia|]. cbn.
    destruct (negb (break_loop (handle s) =? 0)); [exact E|].
    destruct (recvfrom s) as [[n s1] t1].
    destruct ((n <? 0) && (errno s1 =? B_INTERRUPTED)); [|exact E].
    destruct (receive fuel s1) as [[[r s2] t2]|] eqn:E2; [|discriminate E].
    rewrite (IH fuel' s1 _ E2) by lia. exact E.
Qed.

(** The loop leaves at once when the break flag is set or when the
    kernel answers anything but an interrupted call. *)
Lemma receive_once (s : state K) :
  break_loop (handle s) <> 0 \/
  (let '(n, s1, _) := recvfrom s in
   ~ (n < 0 /\ errno s1 = B_INTERRUPTED)) ->
  exists x, receive 1 s = Some x.
Proof.
  intros H. cbn.
  destruct (negb (break_loop (handle s) =? 0)) eqn:Hb; [eauto|].
  destruct H as [H|H]; [zbool; contradiction|].
  destruct (recvfrom s) as [[n s1] t1].
  destruct ((n <? 0) && (errno s1 =? B_INTERRUPTED)) eqn:Hc; [|eauto].
  zbool. destruct H. auto.
Qed.

Lemma wrap32_range (z : Z) : 0 <= wrap32 z < 2 ^ 32.
Proof. unfold wrap32. apply Z.mod_pos_bound. lia. Qed.

Lemma wrap32_small (z : Z) : 0 <= z < 2 ^ 32 -> wrap32 z = z.
Proof. unfold wrap32. apply Z.mod_small. Qed.

Lemma wrap32_add_l (a b : Z) : wrap32 (wrap32 a + b) = wrap32 (a + b).
Proof. unfold wrap32. apply Zplus_mod_idemp_l. Qed.

(** What [deliver] does with a datagram that fits the buffer: it counts
    it, and then either the filter installed in the handle rejects it,
    which is counted too, or the callback gets it.  The filter stays
    installed. *)
Lemma deliver_counts {U : Type} (bytesReceived : Z)
    (callback : pcap_handler U) (userdata : U) (s : state K) :
  0 <= bytesReceived <= bufsize (handle s) ->
  bufsize (handle s) < 2 ^ 32 ->
  let '(r, s2, t2) := deliver bytesReceived callback userdata s in
  let rejected :=
    rejects (fcode_bf_insns (handle s))
            (buffer_at_offset (handle s), bytesReceived) in
  r = (if rejected then 0 else 1) /\
  count is_rejection t2 = (if rejected then 1 else 0)%nat /\
  count is_callback t2 = (if rejected then 0 else 1)%nat /\
  ps_recv (stat (priv (handle s2)))
    = wrap32 (ps_recv (stat (priv (handle s))) + 1) /\
  ps_drop (stat (priv (handle s2)))
    = (if rejected then wrap32 (ps_drop (stat (priv (handle s))) + 1)
       else ps_drop (stat (priv (handle s)))) /\
  fcode_bf_insns (handle s2) = fcode_bf_insns (handle s) /\
  bufsize (handle s2) = bufsize (handle s).
Proof.
  intros HL Hb. unfold deliver, rejects. unfold_m.
  rewrite (wrap32_small bytesReceived) by lia. cbn.
  unfold buffer_at_offset. cbn.
  repeat kstep; try (zbool; lia); unfold count; cbn in *;
    repeat match goal with
           | H : Some _ = Some _ |- _ => inversion H; subst; clear H
           end;
    try congruence; repeat split; congruence.
Qed.

Lemma read_received {U : Type} (fuel : nat) (callback : pcap_handler U)
    (userdata : U) (s s1 : state K) (bytesReceived : Z) (t1 : list event) :
  receive fuel s = Some (Received bytesReceived, s1, t1) ->
  pcap_read_haiku fuel callback userdata s =
  Some (fst (fst (deliver bytesReceived callback userdata s1)),
        snd (fst (deliver bytesReceived callback userdata s1)),
        t1 ++ snd (deliver bytesReceived callback userdata s1)).
Proof.
  intros E. unfold pcap_read_haiku. rewrite E.
  destruct (deliver _ _ _ _) as [[r s2] t2]. reflexivity.
Qed.

Lemma no_filter_no_rejection (t : list event) :
  count is_filter t = 0%nat -> count is_rejection t = 0%nat.
Proof.
  unfold count. induction t as [|e t IH]; cbn; [reflexivity|].
  destruct e; cbn; try exact IH. discriminate.
Qed.

(** The counters after [n] calls that each received a datagram, in the
    counters' own arithmetic. *)
Lemma reads_counters {U : Type} (fuel n : nat)
    (callback : pcap_handler U) (userdata : U) :
  forall s : state K,
  0 <= ps_recv (stat (priv (handle s))) < 2 ^ 32 ->
  0 <= ps_drop (stat (priv (handle s))) < 2 ^ 32 ->
  bufsize (handle s) < 2 ^ 32 ->
  all_received fuel n callback userdata s ->
  exists (rs : list Z) (s' : state K) (t : list event),
    read_n fuel n callback userdata s = Some (rs, s', t) /\
    List.length rs = n /\
    let k := rejected (fcode_bf_insns (handle s))
                      (datagrams fuel n callback userdata s) in
    ps_recv (stat (priv (handle s')))
      = wrap32 (ps_recv (stat (priv (handle s))) + Z.of_nat n) /\
    ps_drop (stat (priv (handle s')))
      = wrap32 (ps_drop (stat (priv (handle s))) + Z.of_nat k) /\
    count is_rejection t = k /\
    (k <= n)%nat /\
    count is_callback t = (n - k)%nat.
Proof.
  induction n as [|n IH]; intros s Hr Hd Hb Hall.
  - exists [], s, []. cbn. rewrite !Z.add_0_r, !wrap32_small by assumption.
    repeat split. lia.
  - cbn in Hall. cbn [datagrams].
    destruct (receive fuel s) as [[[[|L] s1] t1]|] eqn:E;
      try contradiction.
    destruct Hall as (HL & Hall).
    pose proof (receive_same _ _ _ _ _ E)
      as (_ & Hp & _ & Hb1 & _ & Hfc1 & Hc1 & Hf1).
    pose proof (no_filter_no_rejection _ Hf1) as Hj1.
    assert (Hb' : bufsize (handle s1) < 2 ^ 32) by (rewrite Hb1; exact Hb).
    pose proof (deliver_counts L callback userdata s1 HL Hb') as Hdel.
    cbn [read_n]. rewrite (read_received _ callback userdata _ _ _ _ E).
    destruct (deliver L callback userdata s1) as [[r s2] t2].
    cbn [fst snd] in *. cbv zeta in Hdel.
    destruct Hdel as (Hret & Hj2 & Hc2 & Hr2 & Hd2 & Hfc2 & Hb2).
    rewrite Hp in Hr2, Hd2. rewrite Hfc1 in Hj2, Hc2, Hd2, Hfc2, Hret.
    destruct (IH s2) as (rs & s' & t & Hrun & Hlen & Hr' & Hd' & Hj' & Hle & Hcb).
    + rewrite Hr2. apply wrap32_range.
    + rewrite Hd2. destruct (rejects _ _); [apply wrap32_range | exact Hd].
    + rewrite Hb2, Hb1. exact Hb.
    + exact Hall.
    + rewrite Hfc2 in Hd', Hj', Hle, Hcb.
      rewrite Hrun. exists (r :: rs), s', (t1 ++ t2 ++ t).
      unfold rejected in *. cbn [List.filter].
      rewrite !count_app, Hj1, Hc1, Hj2, Hc2, Hj'.
      split; [rewrite <- List.app_assoc; reflexivity|].
      split; [cbn; rewrite Hlen; reflexivity|].
      rewrite Hr', Hd', Hr2, Hd2, Nat2Z.inj_succ.
      destruct (rejects (fcode_bf_insns (handle s))
                        (buffer_at_offset (handle s1), L));
        cbn [Nat.add List.length];
        rewrite ?Nat2Z.inj_succ, ?wrap32_add_l;
        repeat split; try (f_equal; lia); lia.
Qed.

(** C3.  After [n] calls of the read operation in a row, each of which
    received a datagram that fits the buffer, and of which the filter
    installed in the handle rejects [k], the received counter has grown
    by [n], the dropped-by-filter counter by [k], and the callback has
    run [n - k] times, once for every datagram that was not rejected.
    [k] is counted on the datagrams themselves, by [pcapint_filter] on
    the bytes and the length of each; the calls have run the filter with
    answer 0 as often.  The counters are [u_int]: they grow in 32-bit
    arithmetic, which is plain addition for as long as the sum fits. *)
Theorem counters_after_reads {U : Type} (fuel n : nat)
    (callback : pcap_handler U) (userdata : U) (s : state K) :
  0 <= ps_recv (stat (priv (handle s))) < 2 ^ 32 ->
  0 <= ps_drop (stat (priv (handle s))) < 2 ^ 32 ->
  bufsize (handle s) < 2 ^ 32 ->
  all_received fuel n callback userdata s ->
  exists (rs : list Z) (s' : state K) (t : list event),
    read_n fuel n callback userdata s = Some (rs, s', t) /\
    List.length rs = n /\
    let k := rejected (fcode_bf_insns (handle s))
                      (datagrams fuel n callback userdata s) in
    let recv := ps_recv (stat (priv (handle s))) in
    let drop := ps_drop (stat (priv (handle s))) in
    ps_recv (stat (priv (handle s'))) = wrap32 (recv + Z.of_nat n) /\
    ps_drop (stat (priv (handle s'))) = wrap32 (drop + Z.of_nat k) /\
    (recv + Z.of_nat n < 2 ^ 32 ->
     ps_recv (stat (priv (handle s'))) = recv + Z.of_nat n) /\
    (drop + Z.of_nat k < 2 ^ 32 ->
     ps_drop (stat (priv (handle s'))) = drop + Z.of_nat k) /\
    (k <= n)%nat /\
    count is_callback t = (n - k)%nat /\
    count is_rejection t = k.
Proof.
  intros Hr Hd Hb Hall.
  destruct (reads_counters fuel n callback userdata s Hr Hd Hb Hall)
    as (rs & s' & t & Hrun & Hlen & Hr' & Hd' & Hj & Hle & Hcb).
  exists rs, s', t. cbv zeta.
  repeat split; try assumption.
  - intros Hfit. rewrite Hr'. apply wrap32_small. lia.
  - intros Hfit. rewrite Hd'. apply wrap32_small. lia.
Qed.

Lemma deliver_same {U : Type} (bytesReceived : Z)
    (callback : pcap_handler U) (userdata : U) (s : state K) :
  let h := handle s in
  let h' := handle (snd (fst (deliver bytesReceived callback userdata s))) in
  fd h' = fd h /\ aux_socket (priv h') = aux_socket (priv h) /\
  read_op h' = read_op h /\ bufsize h' = bufsize h /\
  snapshot h' = snapshot h.
Proof.
  unfold deliver. unfold_m. cbn.
  repeat kstep; repeat split; reflexivity.
Qed.

Lemma stats_same (stats : pcap_stat) (s : state K) :
  let h := handle s in
  let h' := handle (snd (fst (pcap_stats_haiku stats s))) in
  fd h' = fd h /\ aux_socket (priv h') = aux_socket (priv h) /\
  read_op h' = read_op h /\ bufsize h' = bufsize h /\
  snapshot h' = snapshot h.
Proof.
  unfold_m. cbn.
  repeat kstep; repeat split; reflexivity.
Qed.

(** Every state of a session satisfies the invariant. *)
Lemma session_invariant (s : state K) : session s -> session_inv (handle s).
Proof.
  induction 1 as [device h e k Hfd Hrd | s _ IH
                 | U fuel cb ud s s' r t _ IH E | stats s _ IH | s _ IH
                 | insns s _ IH | s _ IH | e k s _ IH ].
  - unfold session_inv, pcapint_create_interface. cbn.
    repeat split; try (left; assumption || reflexivity); contradiction.
  - apply activate_inv, IH.
  - unfold pcap_read_haiku in E.
    destruct (receive fuel s) as [[[[|L] s1] t1]|] eqn:E1; try discriminate E.
    + inversion E; subst.
      apply receive_same in E1.
      destruct E1 as (Hfd & Hp & Hrd & Hb & Hs & _).
      unfold session_inv in *. rewrite Hfd, Hp, Hrd, Hb, Hs. exact IH.
    + pose proof (deliver_same L cb ud s1) as Hd.
      destruct (deliver L cb ud s1) as [[r2 s2] t2]. inversion E; subst.
      cbn in Hd. destruct Hd as (Hfd' & Ha' & Hrd' & Hb' & Hs').
      apply receive_same in E1.
      destruct E1 as (Hfd & Hp & Hrd & Hb & Hs & _).
      unfold session_inv in *.
      rewrite Hfd', Ha', Hrd', Hb', Hs', Hfd, Hp, Hrd, Hb, Hs. exact IH.
  - destruct (stats_same stats s) as (Hfd & Ha & Hrd & Hb & Hs).
    unfold session_inv in *. rewrite Hfd, Ha, Hrd, Hb, Hs. exact IH.
  - apply cleanup_inv, IH.
  - exact IH.
  - exact IH.
  - exact IH.
Qed.

(** C9.  On any session state a cleanup leaves both descriptors marked
    closed, and a second cleanup right after it changes nothing and calls
    nothing: no [close], no [ioctl].  Cleanup has no way to fail: it is a
    total function that answers [tt]. *)
Theorem cleanup_idempotent (s : state K) :
  session s ->
  let s1 := snd (fst (pcap_cleanup_haiku s)) in
  fd (handle s1) = -1 /\
  aux_socket (priv (handle s1)) = -1 /\
  pcap_cleanup_haiku s1 = (tt, s1, []).
Proof.
  intros Hs. apply session_invariant in Hs.
  destruct Hs as (Hfd & Haux & _).
  destruct (cleanup_handle s) as (Hfd' & Haux' & _).
  cbn zeta in *.
  assert (F : fd (handle (snd (fst (pcap_cleanup_haiku s)))) = -1).
  { rewrite Hfd'. clear Hfd' Haux'. destruct (0 <=? _) eqn:E; zbool; lia. }
  assert (A : aux_socket (priv (handle (snd (fst (pcap_cleanup_haiku s)))))
              = -1).
  { rewrite Haux'. clear Hfd' Haux' F.
    destruct (0 <=? _) eqn:E; zbool; lia. }
  repeat split; try assumption.
  apply cleanup_closed; lia.
Qed.

(** C6.  In a session whose read operation is installed, a call that
    received [bytesReceived] bytes hands the callback a header whose
    captured length is the smaller of [bytesReceived] and the snapshot
    length and whose original length is [bytesReceived]; the captured
    length is at most the 65536 bytes of the buffer, and a call that
    received more than that answers [PCAP_ERROR] without a callback. *)
Theorem header_lengths {U : Type} (fuel : nat) (callback : pcap_handler U)
    (userdata : U) (s s1 : state K) (bytesReceived : Z) (t1 : list event) :
  session s ->
  read_op (handle s) = Fn_pcap_read_haiku ->
  receive fuel s = Some (Received bytesReceived, s1, t1) ->
  0 <= bytesReceived ->
  exists (r : Z) (s2 : state K) (t2 : list event),
    pcap_read_haiku fuel callback userdata s = Some (r, s2, t1 ++ t2) /\
    bufsize (handle s) = 65536 /\
    (65536 < bytesReceived ->
     r = PCAP_ERROR /\ count is_callback (t1 ++ t2) = 0%nat) /\
    (r = 1 -> count is_callback (t1 ++ t2) = 1%nat) /\
    (forall (hdr : pcap_pkthdr) (pkt : list byte),
     In (EvCallback hdr pkt) (t1 ++ t2) ->
     caplen hdr = Z.min bytesReceived (snapshot (handle s)) /\
     len hdr = bytesReceived /\
     caplen hdr <= 65536).
Proof.
  intros Hs Hrd E HL. apply session_invariant in Hs.
  destruct Hs as (_ & _ & Hact). specialize (Hact Hrd).
  destruct Hact as (Hb & Hsn).
  pose proof (receive_same _ _ _ _ _ E)
    as (_ & _ & _ & Hb1 & Hs1 & _ & Hc1 & _).
  rewrite (read_received _ callback userdata _ _ _ _ E).
  assert (Hin1 : forall hdr pkt, ~ In (EvCallback hdr pkt) t1).
  { intros hdr pkt Hin. unfold count in Hc1.
    assert (Hin' : In (EvCallback hdr pkt) (List.filter is_callback t1))
      by (apply List.filter_In; split; [exact Hin | reflexivity]).
    destruct (List.filter is_callback t1); [exact Hin' | discriminate Hc1]. }
  rewrite <- Hb1 in Hb. rewrite <- Hs1 in Hsn. rewrite <- Hs1.
  assert (G : let '(r, s2, t2) := deliver bytesReceived callback userdata s1 in
              (65536 < bytesReceived ->
               r = PCAP_ERROR /\ count is_callback t2 = 0%nat) /\
              (r = 1 -> count is_callback t2 = 1%nat) /\
              (forall hdr pkt, In (EvCallback hdr pkt) t2 ->
               caplen hdr = Z.min bytesReceived (snapshot (handle s1)) /\
               len hdr = bytesReceived /\ caplen hdr <= 65536)).
  { unfold deliver. unfold_m. cbn.
    unfold MAXIMUM_SNAPLEN in Hsn.
    repeat kstep; zbool; try lia;
      (split; [ intros; try lia; split; reflexivity
              | split; [ intros HH; try reflexivity; try discriminate HH
                       | intros hdr pkt Hin; cbn in Hin;
                         repeat (destruct Hin as [Hin|Hin];
                                 try discriminate Hin);
                         try contradiction;
                         inversion Hin; subst; cbn;
                         rewrite ?wrap32_small in * by lia; lia ] ]). }
  destruct (deliver bytesReceived callback userdata s1) as [[r s2] t2].
  cbn [fst snd]. destruct G as (G1 & G2 & G3).
  exists r, s2, t2. rewrite count_app, Hc1. cbn [Nat.add].
  split; [reflexivity|]. split; [rewrite <- Hb1; exact Hb|].
  split; [exact G1|]. split; [exact G2|].
  intros hdr pkt Hin. apply List.in_app_or in Hin.
  destruct Hin as [Hin|Hin]; [destruct (Hin1 _ _ Hin)|].
  apply (G3 _ _ Hin).
Qed.

(** C5, as amended.  A filter is installed and the call received
    [bytesReceived] bytes.  When they fit the buffer, the filter runs
    once, on the buffer, with [bytesReceived] as both of its lengths; if
    it answers 0 the dropped-by-filter counter grows by one, the call
    answers 0 and the callback does not run; otherwise the callback runs
    once and the call answers 1.  When they do not fit the buffer, the
    call answers [PCAP_ERROR] with its message about the length, and
    neither the filter nor the callback has run. *)
Theorem filter_sees_received_length {U : Type} (fuel : nat)
    (callback : pcap_handler U) (userdata : U) (s s1 : state K)
    (bytesReceived : Z) (t1 : list event) (insns : list bpf_insn) :
  fcode_bf_insns (handle s) = Some insns ->
  receive fuel s = Some (Received bytesReceived, s1, t1) ->
  0 <= bytesReceived ->
  bufsize (handle s) < 2 ^ 32 ->
  exists (r : Z) (s2 : state K) (t2 : list event),
    pcap_read_haiku fuel callback userdata s = Some (r, s2, t1 ++ t2) /\
    (bytesReceived <= bufsize (handle s) ->
     let pkt := buffer_at_offset (handle s1) in
     let v := pcapint_filter insns pkt bytesReceived bytesReceived in
     List.filter is_filter (t1 ++ t2)
       = [EvFilter insns pkt bytesReceived bytesReceived v] /\
     (v = 0 ->
      r = 0 /\ count is_callback (t1 ++ t2) = 0%nat /\
      ps_drop (stat (priv (handle s2)))
        = wrap32 (ps_drop (stat (priv (handle s))) + 1)) /\
     (v <> 0 ->
      r = 1 /\ count is_callback (t1 ++ t2) = 1%nat /\
      ps_drop (stat (priv (handle s2)))
        = ps_drop (stat (priv (handle s))))) /\
    (bufsize (handle s) < bytesReceived ->
     r = PCAP_ERROR /\
     List.filter is_filter (t1 ++ t2) = [] /\
     count is_callback (t1 ++ t2) = 0%nat /\
     ps_drop (stat (priv (handle s2))) = ps_drop (stat (priv (handle s))) /\
     errbuf (handle s2)
       = snprintf_errbuf
           (msg_recv_exceeds bytesReceived (bufsize (handle s)))).
Proof.
  intros Hf E HL Hb.
  pose proof (receive_handle _ _ _ _ _ E) as (_ & _ & Hf1).
  pose proof (receive_same _ _ _ _ _ E)
    as (_ & Hp & _ & Hb1 & _ & Hf' & Hc1 & _).
  rewrite (read_received _ callback userdata _ _ _ _ E).
  rewrite <- Hf' in Hf. rewrite <- Hb1 in Hb. rewrite <- Hb1, <- Hp.
  assert (G : let '(r, s2, t2) := deliver bytesReceived callback userdata s1 in
    (bytesReceived <= bufsize (handle s1) ->
     let pkt := buffer_at_offset (handle s1) in
     let v := pcapint_filter insns pkt bytesReceived bytesReceived in
     List.filter is_filter t2
       = [EvFilter insns pkt bytesReceived bytesReceived v] /\
     (v = 0 ->
      r = 0 /\ count is_callback t2 = 0%nat /\
      ps_drop (stat (priv (handle s2)))
        = wrap32 (ps_drop (stat (priv (handle s1))) + 1)) /\
     (v <> 0 ->
      r = 1 /\ count is_callback t2 = 1%nat /\
      ps_drop (stat (priv (handle s2)))
        = ps_drop (stat (priv (handle s1))))) /\
    (bufsize (handle s1) < bytesReceived ->
     r = PCAP_ERROR /\
     List.filter is_filter t2 = [] /\
     count is_callback t2 = 0%nat /\
     ps_drop (stat (priv (handle s2))) = ps_drop (stat (priv (handle s1))) /\
     errbuf (handle s2)
       = snprintf_errbuf
           (msg_recv_exceeds bytesReceived (bufsize (handle s1))))).
  { unfold deliver. unfold_m. cbn.
    repeat kstep; zbool; try lia; cbn in *; try discriminate Hf;
      inversion Hf; subst;
      unfold count, buffer_at_offset in *; cbn in *;
      (split; [intros Hfit | intros Hover]); try lia;
      rewrite ?(wrap32_small bytesReceived) in * by lia;
      first [ solve [repeat split; reflexivity]
            | (split; [reflexivity|]); split; intros HH;
              try contradiction; repeat split ]. }
  destruct (deliver bytesReceived callback userdata s1) as [[r s2] t2].
  cbn [fst snd]. exists r, s2, t2.
  rewrite List.filter_app, Hf1, count_app, Hc1. cbn [app Nat.add].
  split; [reflexivity | exact G].
Qed.

(** One step through the code along the kernel's answers: an answer
    already named is put in, another is given a name, and a test is
    decided both ways, innermost first. *)
Ltac answer :=
  match goal with
  | H : sys_socket ?a ?b ?c ?k = _ |- context [sys_socket ?a ?b ?c ?k] =>
    rewrite H
  | H : sys_ioctl ?a ?b ?c ?k = _ |- context [sys_ioctl ?a ?b ?c ?k] =>
    rewrite H
  | H : sys_malloc ?a ?k = _ |- context [sys_malloc ?a ?k] =>
    rewrite H
  | |- context [sys_socket ?a ?b ?c ?k] =>
    destruct (sys_socket a b c k) as [[? ?] ?] eqn:?
  | |- context [sys_ioctl ?a ?b ?c ?k] =>
    destruct (sys_ioctl a b c k) as [[[? ?] ?] ?] eqn:?
  | |- context [sys_malloc ?a ?k] =>
    destruct (sys_malloc a k) as [[[?|] ?] ?] eqn:?
  | |- context [if ?c then _ else _] =>
    lazymatch c with
    | context [if _ then _ else _] => fail
    | _ => destruct c eqn:?
    end
  end; cbn.

(** The answer of activation, from the answers of its two parts. *)
Lemma activate_result (s : state K) :
  fst (fst (pcap_activate_haiku s)) =
  match activate_setup PCAP_ERROR s with
  | (Some ret, _, _) => ret
  | (None, s1, _) =>
    match fst (fst (activate_promisc s1)) with
    | Goto_error => PCAP_ERROR
    | Return v => v
    end
  end.
Proof.
  unfold pcap_activate_haiku, bind, pure.
  destruct (activate_setup PCAP_ERROR s) as [[x s1] t1].
  destruct x as [ret|].
  - destruct (pcap_cleanup_haiku s1) as [[u s2] t2]. reflexivity.
  - destruct (activate_promisc s1) as [[y s2] t2]. cbn [fst snd].
    destruct y as [|v]; [|reflexivity].
    destruct (pcap_cleanup_haiku s2) as [[u s3] t3]. reflexivity.
Qed.

(** C7.  Activation answers [PCAP_ERROR_NO_SUCH_DEVICE] exactly when the
    control socket opened and the statistics request on it, the first
    request that names the interface, failed with [EINVAL].  Whatever
    fails otherwise, the answer is [PCAP_ERROR]: the control socket, the
    statistics request with another error code, and every step after
    it, which are the capture socket, the address request, an address
    of another family, an interface type without a link type, the
    request for capture mode, the allocation of the buffer and, when
    promiscuous mode is requested, the flags query. *)
Theorem no_such_device_iff (s : state K) :
  (fst (fst (pcap_activate_haiku s)) = PCAP_ERROR_NO_SUCH_DEVICE
   <->
   (let '(a, _, k1) := sys_socket AF_INET SOCK_DGRAM 0 (kernel s) in
    0 <= a /\
    let '(r, e, _, _) :=
      sys_ioctl a SIOCGIFSTATS (ifreq (priv (handle s))) k1 in
    r < 0 /\ e = EINVAL)) /\
  (let v := fst (fst (pcap_activate_haiku s)) in
   let '(a, _, k1) := sys_socket AF_INET SOCK_DGRAM 0 (kernel s) in
   let '(r1, e1, req1, k2) :=
     sys_ioctl a SIOCGIFSTATS (ifreq (priv (handle s))) k1 in
   (a < 0 -> v = PCAP_ERROR) /\
   (0 <= a -> r1 < 0 -> e1 <> EINVAL -> v = PCAP_ERROR) /\
   (0 <= a -> 0 <= r1 ->
    let '(f, _, k3) := sys_socket AF_LINK SOCK_DGRAM 0 k2 in
    (f < 0 -> v = PCAP_ERROR) /\
    (0 <= f ->
     let '(r2, _, req2, k4) := sys_ioctl f SIOCGIFADDR req1 k3 in
     let type := sdl_type (ifr_addr req2) in
     (r2 < 0 -> v = PCAP_ERROR) /\
     (0 <= r2 -> sdl_family (ifr_addr req2) <> AF_LINK -> v = PCAP_ERROR) /\
     (0 <= r2 -> sdl_family (ifr_addr req2) = AF_LINK ->
      (type <> IFT_ETHER -> type <> IFT_TUNNEL -> type <> IFT_LOOP ->
       v = PCAP_ERROR) /\
      (type = IFT_ETHER \/ type = IFT_TUNNEL \/ type = IFT_LOOP ->
       let '(r3, _, req3, k5) := sys_ioctl f SIOCSPACKETCAP req2 k4 in
       (r3 < 0 -> v = PCAP_ERROR) /\
       (0 <= r3 ->
        let '(b, _, k6) := sys_malloc 65536 k5 in
        (b = None -> v = PCAP_ERROR) /\
        (b <> None -> opt_promisc (handle s) <> 0 ->
         let '(r4, _, _, _) := sys_ioctl a SIOCGIFFLAGS req3 k6 in
         r4 < 0 -> v = PCAP_ERROR))))))).
Proof.
  split.
  - rewrite <- setup_no_such_device.
    pose proof (setup_exits s) as Hx. cbn zeta in Hx.
    unfold pcap_activate_haiku, bind, pure.
    destruct (activate_setup PCAP_ERROR s) as [[x s1] t1]. cbn [fst snd] in *.
    destruct x as [ret|].
    + destruct (pcap_cleanup_haiku s1) as [[u s2] t2]. cbn.
      split; [intros ->; reflexivity | intros H; inversion H; reflexivity].
    + pose proof (promisc_step_exits s1) as Hy. cbn zeta in Hy.
      destruct (activate_promisc s1) as [[y s2] t2]. cbn [fst snd] in *.
      destruct Hy as [-> | [-> | ->]].
      * destruct (pcap_cleanup_haiku s2) as [[u s3] t3]. cbn.
        split; intros H; discriminate H.
      * cbn. split; intros H; discriminate H.
      * cbn. split; intros H; discriminate H.
  - cbv zeta. rewrite activate_result.
    unfold activate_setup, activate_promisc. unfold_m. cbn.
    repeat answer;
      repeat match goal with
             | |- _ /\ _ => split
             | |- _ -> _ => intro
             end;
      cbn in *; zbool; try reflexivity; try lia; try congruence;
      try (exfalso; intuition congruence).
Qed.

(** C10.  When the kernel refuses the statistics request, the query
    answers [PCAP_ERROR], and the caller's record, whatever it held, now
    holds the handle's counters, with the baseline taken at activation in
    the interface-drop member. *)
Theorem stats_not_atomic (stats : pcap_stat) (s : state K) (r e : Z)
    (req : struct_ifreq) (k : K) :
  sys_ioctl (aux_socket (priv (handle s))) SIOCGIFSTATS
            (ifreq (priv (handle s))) (kernel s) = (r, e, req, k) ->
  r < 0 ->
  exists s' : state K,
    pcap_stats_haiku stats s =
    ((PCAP_ERROR, stat (priv (handle s))), s',
     [EvIoctl (aux_socket (priv (handle s))) SIOCGIFSTATS 0 r]) /\
    stat (priv (handle s')) = stat (priv (handle s)).
Proof.
  intros E Hr. unfold pcap_stats_haiku, bind, get_handle, pure.
  rewrite (ioctl_ifreq_run _ _ _ _ _ _ _ _ E).
  apply Z.ltb_lt in Hr. rewrite Hr. cbn.
  eexists. split; reflexivity.
Qed.

(** C8.  Promiscuous mode was requested and activation reached its last
    step, whose first act is the flags query.  If the query fails,
    activation runs the cleanup and answers [PCAP_ERROR].  If it shows
    the flag set, activation answers 0 without a flags-set request.  If
    it shows the flag clear, activation submits the flags with the bit
    set, and when that request fails it answers
    [PCAP_WARNING_PROMISC_NOTSUP]; either way the session stays usable. *)
Theorem promiscuous_step_outcomes (s s1 : state K) (t1 : list event) (r e : Z)
    (req : struct_ifreq) (k : K) :
  activate_setup PCAP_ERROR s = (None, s1, t1) ->
  opt_promisc (handle s) <> 0 ->
  let aux := aux_socket (priv (handle s1)) in
  sys_ioctl aux SIOCGIFFLAGS (ifreq (priv (handle s1))) (kernel s1)
    = (r, e, req, k) ->
  let query := EvIoctl aux SIOCGIFFLAGS 0 r in
  let '(v, s', t) := pcap_activate_haiku s in
  (r < 0 ->
   v = PCAP_ERROR /\
   t = t1 ++ [query; EvClose (fd (handle s1)); EvClose aux] /\
   fd (handle s') = -1 /\ aux_socket (priv (handle s')) = -1)
  /\
  (0 <= r -> Z.land (ifr_flags req) IFF_PROMISC <> 0 ->
   v = 0 /\ t = t1 ++ [query] /\ usable (handle s'))
  /\
  (0 <= r -> Z.land (ifr_flags req) IFF_PROMISC = 0 ->
   forall (r2 e2 : Z) (req2 : struct_ifreq) (k2 : K),
   sys_ioctl aux SIOCSIFFLAGS
     (set_ifr_flags (Z.lor (ifr_flags req) IFF_PROMISC) req) k
     = (r2, e2, req2, k2) ->
   v = (if r2 <? 0 then PCAP_WARNING_PROMISC_NOTSUP else 0) /\
   t = t1 ++ [query;
              EvIoctl aux SIOCSIFFLAGS
                (Z.lor (ifr_flags req) IFF_PROMISC) r2] /\
   usable (handle s')).
Proof.
  intros E Hp aux Eq query.
  destruct (setup_through _ _ _ _ E) as (Hu & Hopt & _).
  rewrite <- Hopt in Hp. apply Z.eqb_neq in Hp.
  unfold pcap_activate_haiku, bind at 1. rewrite E.
  unfold activate_promisc, bind, get_handle, pure. rewrite Hp. cbn [negb].
  rewrite (get_promisc_run _ _ _ _ _ Eq).
  assert (Hu' := Hu). destruct Hu' as (_ & Hfd & _ & Haux & _).
  destruct (r <? 0) eqn:Hr.
  - cbn -[pcap_cleanup_haiku]. rewrite cleanup_without_promisc; cbn;
      try assumption; [ | right; discriminate ].
    repeat split; intros; zbool; try lia; try reflexivity.
  - destruct (Z.land (ifr_flags req) IFF_PROMISC =? 0) eqn:Hl.
    + cbn -[set_promisc].
      match goal with
      | |- context [set_promisc 1 ?s0] =>
        destruct (sys_ioctl aux SIOCSIFFLAGS
                    (set_ifr_flags (Z.lor (ifr_flags req) IFF_PROMISC) req) k)
          as [[[r2 e2] req2] k2] eqn:Es;
        rewrite (set_promisc_run 1 s0 r2 e2 req2 k2) by exact Es
      end.
      destruct (r2 <? 0) eqn:Hr2; cbn;
        (split; [intros; zbool; lia|]);
        (split; [intros _ Hn; zbool; contradiction|]);
        intros _ _ r2' e2' req2' k2' Es';
        try rewrite Es in Es'; inversion Es'; subst;
        rewrite Hr2; repeat split; try apply Hu.
    + cbn.
      (split; [intros; zbool; lia|]).
      split; [ intros _ _; repeat split; try apply Hu
             | intros _ Hn; zbool; contradiction ].
Qed.

(** *** What holds around the three defects *)

(** The mapping from interface type to link type, once activation has
    opened both sockets and the address request has answered with a
    link-level address.  The message about an unknown type is what the
    caller finds when the cleanup has no flag to restore. *)
Lemma linktype_of_interface_type (s : state K)
    (a e1 : Z) (k1 : K) (r2 e2 : Z) (req2 : struct_ifreq) (k2 : K)
    (f e3 : Z) (k3 : K) (r4 e4 : Z) (req4 : struct_ifreq) (k4 : K) :
  sys_socket AF_INET SOCK_DGRAM 0 (kernel s) = (a, e1, k1) -> 0 <= a ->
  sys_ioctl a SIOCGIFSTATS (ifreq (priv (handle s))) k1 = (r2, e2, req2, k2) ->
  0 <= r2 ->
  sys_socket AF_LINK SOCK_DGRAM 0 k2 = (f, e3, k3) -> 0 <= f ->
  sys_ioctl f SIOCGIFADDR req2 k3 = (r4, e4, req4, k4) -> 0 <= r4 ->
  sdl_family (ifr_addr req4) = AF_LINK ->
  let type := sdl_type (ifr_addr req4) in
  let '(v, s', _) := pcap_activate_haiku s in
  (type = IFT_ETHER -> linktype (handle s') = DLT_EN10MB) /\
  (type <> IFT_ETHER -> type = IFT_TUNNEL \/ type = IFT_LOOP ->
   linktype (handle s') = DLT_RAW) /\
  (type <> IFT_ETHER -> type <> IFT_TUNNEL -> type <> IFT_LOOP ->
   v = PCAP_ERROR /\
   linktype (handle s') = linktype (handle s) /\
   (opt_promisc (handle s) = 0 \/ orig_promisc (priv (handle s)) <> 0 ->
    errbuf (handle s')
      = snprintf_errbuf (msg_unknown_type type (opt_device (handle s))))).
Proof.
  intros E1 Ha E2 Hr2 E3 Hf E4 Hr4 Hfam type.
  assert (G : let '(x, s1, _) := activate_setup PCAP_ERROR s in
    (type = IFT_ETHER -> linktype (handle s1) = DLT_EN10MB) /\
    (type <> IFT_ETHER -> type = IFT_TUNNEL \/ type = IFT_LOOP ->
     linktype (handle s1) = DLT_RAW) /\
    (type <> IFT_ETHER -> type <> IFT_TUNNEL -> type <> IFT_LOOP ->
     x = Some PCAP_ERROR /\
     linktype (handle s1) = linktype (handle s) /\
     errbuf (handle s1)
       = snprintf_errbuf (msg_unknown_type type (opt_device (handle s))) /\
     0 <= fd (handle s1) /\ 0 <= aux_socket (priv (handle s1)) /\
     opt_promisc (handle s1) = opt_promisc (handle s) /\
     orig_promisc (priv (handle s1)) = orig_promisc (priv (handle s)))).
  { subst type. unfold activate_setup. unfold_m. cbn.
    repeat kstep; zbool; try lia; try congruence;
      repeat match goal with
             | H : _ \/ _ |- _ => destruct H
             end;
      (split; [intros; try reflexivity; try contradiction; try congruence|]);
      (split; [intros; try reflexivity; try contradiction;
               repeat match goal with
                      | H : _ \/ _ |- _ => destruct H
                      end; try congruence|]);
      intros; try contradiction; try congruence;
      repeat split; try reflexivity; try assumption. }
  unfold pcap_activate_haiku, bind, pure.
  destruct (activate_setup PCAP_ERROR s) as [[x s1] t1].
  destruct G as (G1 & G2 & G3).
  destruct x as [ret|].
  - pose proof (cleanup_handle s1) as (_ & _ & _ & Hsame). cbn zeta in Hsame.
    destruct Hsame as (_ & _ & _ & _ & _ & Hlt & _).
    pose proof (cleanup_without_promisc s1) as Hrun.
    destruct (pcap_cleanup_haiku s1) as [[u s2] t2]. cbn [fst snd] in *.
    rewrite Hlt.
    split; [exact G1|]. split; [exact G2|].
    intros N1 N2 N3. destruct (G3 N1 N2 N3)
      as (Hx & Hl & Hm & Hfd & Haux & Hop & Hor).
    inversion Hx; subst. repeat split; try assumption.
    intros Hp. rewrite <- Hop, <- Hor in Hp.
    specialize (Hrun Hfd Haux Hp). inversion Hrun; subst. cbn. exact Hm.
  - pose proof (promisc_step_handle s1) as (_ & _ & _ & Hsame).
    cbn zeta in Hsame. destruct Hsame as (_ & _ & _ & _ & _ & Hlt & _).
    destruct (activate_promisc s1) as [[y s2] t2]. cbn [fst snd] in *.
    assert (G3' : type <> IFT_ETHER -> type <> IFT_TUNNEL ->
                  type <> IFT_LOOP -> False).
    { intros N1 N2 N3. destruct (G3 N1 N2 N3) as (Hx & _). discriminate Hx. }
    destruct y as [|v].
    + pose proof (cleanup_handle s2) as (_ & _ & _ & Hsame2).
      cbn zeta in Hsame2.
      destruct Hsame2 as (_ & _ & _ & _ & _ & Hlt2 & _).
      destruct (pcap_cleanup_haiku s2) as [[u s3] t3]. cbn [fst snd] in *.
      rewrite Hlt2, Hlt.
      split; [exact G1|]. split; [exact G2|].
      intros N1 N2 N3. destruct (G3' N1 N2 N3).
    + cbn. rewrite Hlt.
      split; [exact G1|]. split; [exact G2|].
      intros N1 N2 N3. destruct (G3' N1 N2 N3).
Qed.

(** What the cleanup does about the flag when promiscuous mode was
    requested and the remembered state is 0: it queries the flags once,
    and submits them with the bit cleared when the query shows the bit
    set, and also when the query fails. *)
Lemma cleanup_restore_condition (s : state K) (r e : Z)
    (req : struct_ifreq) (k : K) :
  0 <= aux_socket (priv (handle s)) ->
  opt_promisc (handle s) <> 0 ->
  orig_promisc (priv (handle s)) = 0 ->
  sys_ioctl (aux_socket (priv (handle s))) SIOCGIFFLAGS
            (ifreq (priv (handle s)))
            (if 0 <=? fd (handle s)
             then sys_close (fd (handle s)) (kernel s) else kernel s)
    = (r, e, req, k) ->
  let '(_, _, t) := pcap_cleanup_haiku s in
  count is_get_flags t = 1%nat /\
  count is_set_flags t
    = (if (r <? 0) || negb (Z.land (ifr_flags req) IFF_PROMISC =? 0)
       then 1%nat else 0%nat).
Proof.
  intros Haux Hp Ho Eq.
  apply Z.leb_le in Haux. apply Z.eqb_neq in Hp. apply Z.eqb_eq in Ho.
  unfold pcap_cleanup_haiku, bind, get_handle, pure, modify_handle,
    modify_priv, close.
  destruct (0 <=? fd (handle s)) eqn:Hfd; cbn -[get_promisc set_promisc];
    rewrite Haux, Hp, Ho; cbn -[get_promisc set_promisc];
    rewrite (get_promisc_run _ r e req k) by exact Eq;
    destruct (r <? 0) eqn:Hr; cbn -[set_promisc];
    try (destruct (Z.land (ifr_flags req) IFF_PROMISC =? 0) eqn:Hl;
         cbn -[set_promisc]);
    try match goal with
        | |- context [set_promisc 0 ?s0] =>
          unfold set_promisc, ioctl_ifreq, ioctl, bind, get_handle, pure,
            modify_priv, modify_handle, get_errno; cbn;
          repeat kstep
        end;
    unfold count; cbn; split; reflexivity.
Qed.

(** When the very first request of activation fails, the cleanup that
    follows still queries the flags if promiscuous mode was requested and
    the handle's remembered state is the 0 it was created with. *)
Lemma early_failure_queries_flags (s : state K) (a e1 : Z) (k1 : K)
    (r e : Z) (req : struct_ifreq) (k : K) :
  sys_socket AF_INET SOCK_DGRAM 0 (kernel s) = (a, e1, k1) -> 0 <= a ->
  sys_ioctl a SIOCGIFSTATS (ifreq (priv (handle s))) k1 = (r, e, req, k) ->
  r < 0 ->
  opt_promisc (handle s) <> 0 ->
  orig_promisc (priv (handle s)) = 0 ->
  fd (handle s) = -1 ->
  let '(_, _, t) := pcap_activate_haiku s in
  count is_get_flags t = 1%nat.
Proof.
  intros E1 Ha E2 Hr Hp Ho Hfd.
  apply Z.eqb_neq in Hp. apply Z.eqb_eq in Ho.
  unfold pcap_activate_haiku, activate_setup. unfold_m. cbn.
  repeat kstep; try discriminate; zbool; try lia;
    unfold count; cbn; reflexivity.
Qed.

End Properties.

(** ** The code on concrete sessions *)

Import Sim Scenario.

Ltac decide_closed :=
  vm_compute;
  repeat match goal with
         | |- _ /\ _ => split
         | |- _ = _ => reflexivity
         | |- _ -> False => let H := fresh in intro H; discriminate H
         | |- True => exact I
         end.

Lemma session_boot (device : string) (promisc snaplen : Z) (k : iface) :
  session (boot (created device promisc snaplen) k).
Proof.
  apply (session_created device (created device promisc snaplen) 0 k).
  - reflexivity.
  - discriminate.
Qed.

Lemma session_capturing (snaplen : Z) (q : list pending) :
  session (capturing snaplen q).
Proof.
  unfold capturing, arrive. apply session_world.
  unfold install. apply session_setfilter.
  unfold activated. apply session_activate. apply session_boot.
Qed.

(** C1.  The statistics request fails right after the control socket
    has opened; promiscuous mode was requested, the capture socket never
    opened.  The cleanup then reads the interface flags, finds the
    promiscuous flag that another program had set, and clears it: the
    interface goes from flags 257 to flags 1. *)
Theorem early_failure_clears_foreign_flag :
  let '(v, s', t) := pcap_activate_haiku early_failure in
  opt_promisc (handle early_failure) = 1 /\
  flags (kernel early_failure) = 257 /\
  v = PCAP_ERROR /\
  t = [EvSocket 1 3; EvIoctl 3 SIOCGIFSTATS 0 (-1);
       EvIoctl 3 SIOCGIFFLAGS 0 0; EvIoctl 3 SIOCSIFFLAGS 1 0; EvClose 3] /\
  flags (kernel s') = 1.
Proof. decide_closed. Qed.

(** C2.  The session found the flag clear and set it.  At teardown the
    interface is down, flags 0, and the flags query fails, so nothing
    reports the flag as set.  The cleanup submits flags all the same,
    the stale 257 of its last request with the promiscuous bit cleared,
    and the interface goes from flags 0 to flags 1. *)
Theorem cleanup_writes_flags_it_could_not_read :
  let '(_, s', t) := pcap_cleanup_haiku flags_unreadable in
  opt_promisc (handle flags_unreadable) = 1 /\
  orig_promisc (priv (handle flags_unreadable)) = 0 /\
  flags (kernel flags_unreadable) = 0 /\
  t = [EvClose 4; EvIoctl 3 SIOCGIFFLAGS 0 (-1);
       EvIoctl 3 SIOCSIFFLAGS 1 0; EvClose 3] /\
  flags (kernel s') = 1.
Proof. decide_closed. Qed.

(** C4.  The interface type 23 is none of the three the code knows, and
    promiscuous mode was requested.  Activation writes the message about
    the unknown type and leaves for the cleanup.  The cleanup finds the
    promiscuous flag set, tries to clear it, and the failure of that
    request overwrites the message: the caller gets [PCAP_ERROR] with a
    text that names neither the type nor the device. *)
Theorem unknown_type_message_overwritten :
  let '(v, s', t) := pcap_activate_haiku unknown_type in
  v = PCAP_ERROR /\
  t = [EvSocket 1 3; EvIoctl 3 SIOCGIFSTATS 0 0; EvSocket 4 4;
       EvIoctl 4 SIOCGIFADDR 0 0; EvClose 4;
       EvIoctl 3 SIOCGIFFLAGS 0 0; EvIoctl 3 SIOCSIFFLAGS 1 (-1);
       EvClose 3] /\
  errbuf (handle s') = "SIOCSIFFLAGS: error -2147483647"%string /\
  snprintf_errbuf (msg_unknown_type 23 "ppp0")
    = ("Unknown interface type 0x17 for interface " ++ dquote ++ "ppp0"
       ++ dquote ++ ".")%string.
Proof. decide_closed. Qed.

(** C5, as stated, fails: a filter is installed and a datagram of 65537
    bytes is received, one more than the buffer holds; the call answers
    [PCAP_ERROR] and the filter is never run. *)
Lemma oversize_skips_filter :
  fcode_bf_insns (handle oversize) = Some accept_some /\
  option_map (fun x => fst (fst x)) (receive 1 oversize)
    = Some (Received 65537) /\
  option_map (fun x => (fst (fst x), snd x))
             (pcap_read_haiku 1 count_packets tt oversize)
    = Some (PCAP_ERROR,
            [EvRecvfrom 4 65536 65537; EvClock 1700000000123456]).
Proof. decide_closed. Qed.

(** *** The theorems at work *)

(** C3 on three datagrams, the second of which the filter rejects,
    fetched with one interrupted call in between. *)
Lemma counters_after_reads_witness :
  rejected (fcode_bf_insns (handle three_pending))
           (datagrams 2 3 count_packets tt three_pending) = 1%nat /\
  exists (rs : list Z) (s' : state iface) (t : list event),
    read_n 2 3 count_packets tt three_pending = Some (rs, s', t) /\
    List.length rs = 3%nat /\
    let k := rejected (fcode_bf_insns (handle three_pending))
                      (datagrams 2 3 count_packets tt three_pending) in
    let recv := ps_recv (stat (priv (handle three_pending))) in
    let drop := ps_drop (stat (priv (handle three_pending))) in
    ps_recv (stat (priv (handle s'))) = wrap32 (recv + Z.of_nat 3) /\
    ps_drop (stat (priv (handle s'))) = wrap32 (drop + Z.of_nat k) /\
    (recv + Z.of_nat 3 < 2 ^ 32 ->
     ps_recv (stat (priv (handle s'))) = recv + Z.of_nat 3) /\
    (drop + Z.of_nat k < 2 ^ 32 ->
     ps_drop (stat (priv (handle s'))) = drop + Z.of_nat k) /\
    (k <= 3)%nat /\
    count is_callback t = (3 - k)%nat /\
    count is_rejection t = k.
Proof.
  split; [vm_compute; reflexivity|].
  apply (counters_after_reads 2 3 count_packets tt three_pending);
    decide_closed.
Defined.

(** C5, as amended, on a datagram the filter rejects. *)
Lemma filter_sees_received_length_witness :
  exists (r : Z) (s2 : state iface) (t2 : list event),
    pcap_read_haiku 1 count_packets tt unwanted
      = Some (r, s2, [EvRecvfrom 4 65536 2] ++ t2) /\
    (2 <= bufsize (handle unwanted) ->
     let pkt := buffer_at_offset (handle unwanted_received) in
     let v := pcapint_filter accept_some pkt 2 2 in
     List.filter is_filter ([EvRecvfrom 4 65536 2] ++ t2)
       = [EvFilter accept_some pkt 2 2 v] /\
     (v = 0 ->
      r = 0 /\ count is_callback ([EvRecvfrom 4 65536 2] ++ t2) = 0%nat /\
      ps_drop (stat (priv (handle s2)))
        = wrap32 (ps_drop (stat (priv (handle unwanted))) + 1)) /\
     (v <> 0 ->
      r = 1 /\ count is_callback ([EvRecvfrom 4 65536 2] ++ t2) = 1%nat /\
      ps_drop (stat (priv (handle s2)))
        = ps_drop (stat (priv (handle unwanted))))) /\
    (bufsize (handle unwanted) < 2 ->
     r = PCAP_ERROR /\
     List.filter is_filter ([EvRecvfrom 4 65536 2] ++ t2) = [] /\
     count is_callback ([EvRecvfrom 4 65536 2] ++ t2) = 0%nat /\
     ps_drop (stat (priv (handle s2)))
       = ps_drop (stat (priv (handle unwanted))) /\
     errbuf (handle s2)
       = snprintf_errbuf (msg_recv_exceeds 2 (bufsize (handle unwanted)))).
Proof.
  apply (filter_sees_received_length 1 count_packets tt unwanted
           unwanted_received 2 [EvRecvfrom 4 65536 2] accept_some);
    decide_closed.
Defined.

(** C6 on a datagram of 100 bytes and a snapshot length of 64. *)
Lemma header_lengths_witness :
  exists (r : Z) (s2 : state iface) (t2 : list event),
    pcap_read_haiku 1 count_packets tt long_frame
      = Some (r, s2, [EvRecvfrom 4 65536 100] ++ t2) /\
    bufsize (handle long_frame) = 65536 /\
    (65536 < 100 ->
     r = PCAP_ERROR /\
     count is_callback ([EvRecvfrom 4 65536 100] ++ t2) = 0%nat) /\
    (r = 1 -> count is_callback ([EvRecvfrom 4 65536 100] ++ t2) = 1%nat) /\
    (forall (hdr : pcap_pkthdr) (pkt : list byte),
     In (EvCallback hdr pkt) ([EvRecvfrom 4 65536 100] ++ t2) ->
     caplen hdr = Z.min 100 (snapshot (handle long_frame)) /\
     len hdr = 100 /\
     caplen hdr <= 65536).
Proof.
  apply (header_lengths 1 count_packets tt long_frame long_frame_received
           100 [EvRecvfrom 4 65536 100]).
  - apply session_capturing.
  - reflexivity.
  - vm_compute. reflexivity.
  - lia.
Defined.

(** C7 on an interface that refuses the request for capture mode: the
    first request has answered, and activation answers [PCAP_ERROR]. *)
Lemma no_such_device_iff_witness :
  fst (fst (pcap_activate_haiku packetcap_refused)) = PCAP_ERROR.
Proof.
  destruct (no_such_device_iff packetcap_refused) as [_ H].
  vm_compute in H. destruct H as (_ & _ & H).
  destruct (H ltac:(discriminate) ltac:(discriminate)) as (_ & H1).
  destruct (H1 ltac:(discriminate)) as (_ & _ & H2).
  destruct (H2 ltac:(discriminate) eq_refl) as (_ & H3).
  destruct (H3 (or_introl eq_refl)) as (H4 & _).
  exact (H4 eq_refl).
Defined.

(** C8 on an interface that refuses the flags-set request: activation
    answers the warning and the session is usable. *)
Lemma promiscuous_step_outcomes_witness :
  fst (fst (pcap_activate_haiku no_promisc)) = PCAP_WARNING_PROMISC_NOTSUP /\
  usable (handle (snd (fst (pcap_activate_haiku no_promisc)))).
Proof.
  pose proof (promiscuous_step_outcomes no_promisc no_promisc_setup
                (snd (activate_setup PCAP_ERROR no_promisc))
                (fst (fst (fst no_promisc_query)))
                (snd (fst (fst no_promisc_query)))
                (snd (fst no_promisc_query))
                (snd no_promisc_query)) as H.
  cbv zeta in H.
  destruct (pcap_activate_haiku no_promisc) as [[v s'] t].
  destruct H as (_ & _ & H).
  - vm_compute. reflexivity.
  - vm_compute. discriminate.
  - vm_compute. reflexivity.
  - destruct (H ltac:(vm_compute; discriminate) ltac:(vm_compute; reflexivity)
                (-1) EIO
                (set_ifr_flags 257 (snd (fst no_promisc_query)))
                (snd no_promisc_query)
                ltac:(vm_compute; reflexivity)) as (Hv & _ & Hu).
    split; [exact Hv | exact Hu].
Defined.

(** C9 on a session that activated with promiscuous mode. *)
Lemma cleanup_idempotent_witness :
  let s1 := snd (fst (pcap_cleanup_haiku activated_promisc)) in
  fd (handle s1) = -1 /\
  aux_socket (priv (handle s1)) = -1 /\
  pcap_cleanup_haiku s1 = (tt, s1, []).
Proof.
  apply (cleanup_idempotent activated_promisc).
  unfold activated_promisc. apply session_activate, session_boot.
Defined.

(** C10 on a caller's record that held 11, 22 and 33. *)
Lemma stats_not_atomic_witness :
  exists s' : state iface,
    pcap_stats_haiku {| ps_recv := 11; ps_drop := 22; ps_ifdrop := 33 |}
                     stats_refused =
    ((PCAP_ERROR, stat (priv (handle stats_refused))), s',
     [EvIoctl (aux_socket (priv (handle stats_refused))) SIOCGIFSTATS 0
              (-1)]) /\
    stat (priv (handle s')) = stat (priv (handle stats_refused)).
Proof.
  apply (stats_not_atomic _ stats_refused (-1) EIO
           (ifreq (priv (handle stats_refused))) (kernel stats_refused)).
  - vm_compute. reflexivity.
  - lia.
Defined.

(** ** More of the code

    The remaining paths of the file: the ways a read ends without a
    packet, the statistics query when it succeeds, what an activation
    leaves behind, and the functions around the creation of a handle
    and the device list. *)

Section MoreProperties.

Context {sys : SysHeaders} {ifh : IfHeaders} {lib : PcapInt}
        {K : Type} {kern : Kernel K}.

Ltac unfold_m :=
  unfold pcap_stats_haiku, pcap_cleanup_haiku, get_promisc, set_promisc,
    ioctl_ifreq, dgram_socket, call, filter, real_time_clock_usecs,
    bind, pure, get_handle, get_errno, modify_priv, modify_handle,
    close, ioctl, socket, malloc, errno_after in *.

Ltac kstep :=
  match goal with
  | H : sys_socket ?a ?b ?c ?k = _ |- context [sys_socket ?a ?b ?c ?k] =>
    rewrite H
  | H : sys_ioctl ?a ?b ?c ?k = _ |- context [sys_ioctl ?a ?b ?c ?k] =>
    rewrite H
  | |- context [sys_socket ?a ?b ?c ?k] =>
    destruct (sys_socket a b c k) as [[? ?] ?] eqn:?
  | |- context [sys_ioctl ?a ?b ?c ?k] =>
    destruct (sys_ioctl a b c k) as [[[? ?] ?] ?] eqn:?
  | |- context [sys_malloc ?a ?k] =>
    destruct (sys_malloc a k) as [[[?|] ?] ?]
  | |- context [sys_real_time_clock_usecs ?k] =>
    destruct (sys_real_time_clock_usecs k) as [? ?]
  | |- context [match fcode_bf_insns ?h with _ => _ end] =>
    destruct (fcode_bf_insns h) eqn:?
  | |- context [if ?c then _ else _] => destruct c eqn:?
  end; cbn.

Ltac zbool :=
  repeat match goal with
  | H : (_ <? _) = true |- _ => apply Z.ltb_lt in H
  | H : (_ <? _) = false |- _ => apply Z.ltb_ge in H
  | H : (_ <=? _) = true |- _ => apply Z.leb_le in H
  | H : (_ <=? _) = false |- _ => apply Z.leb_gt in H
  | H : (_ >? _) = true |- _ => rewrite Z.gtb_ltb in H; apply Z.ltb_lt in H
  | H : (_ >? _) = false |- _ => rewrite Z.gtb_ltb in H; apply Z.ltb_ge in H
  | H : (_ >=? _) = true |- _ => rewrite Z.geb_leb in H; apply Z.leb_le in H
  | H : (_ >=? _) = false |- _ => rewrite Z.geb_leb in H; apply Z.leb_gt in H
  | H : (_ =? _) = true |- _ => apply Z.eqb_eq in H
  | H : (_ =? _) = false |- _ => apply Z.eqb_neq in H
  | H : negb _ = true |- _ => apply negb_true_iff in H
  | H : negb _ = false |- _ => apply negb_false_iff in H
  | H : (_ || _) = true |- _ => apply orb_true_iff in H
  | H : (_ || _) = false |- _ => apply orb_false_iff in H; destruct H
  | H : (_ && _) = true |- _ => apply andb_true_iff in H; destruct H
  | H : (_ && _) = false |- _ => apply andb_false_iff in H
  end.

(** *** Reads that end without a packet *)

(** What [deliver] leaves alone, whatever it was given. *)
Lemma deliver_frame {U : Type} (bytesReceived : Z)
    (callback : pcap_handler U) (userdata : U) (s : state K) :
  let h := handle s in
  let h' := handle (snd (fst (deliver bytesReceived callback userdata s))) in
  fd h' = fd h /\ selectable_fd h' = selectable_fd h /\
  aux_socket (priv h') = aux_socket (priv h) /\
  ifreq (priv h') = ifreq (priv h) /\
  orig_promisc (priv h') = orig_promisc (priv h) /\
  ps_ifdrop (stat (priv h')) = ps_ifdrop (stat (priv h)) /\
  buffer h' = buffer h /\ break_loop h' = break_loop h /\
  same_session (set_priv (priv h') h) h'.
Proof.
  unfold same_session, deliver. unfold_m. cbn.
  repeat kstep; repeat split; cbn; congruence.
Qed.



(** X2.  A receive that failed, for another reason than an interrupted call,
    ends the read without a packet: with 0 when the descriptor had
    nothing to give ([B_WOULD_BLOCK]), and otherwise with [PCAP_ERROR]
    and the message for the error code.  The counters stay as they are,
    the filter and the callback do not run, and only the second case
    writes the error buffer. *)
Theorem failed_receive_ends_read {U : Type} (fuel : nat)
    (callback : pcap_handler U) (userdata : U) (s s1 : state K)
    (bytesReceived : Z) (t1 : list event) :
  receive fuel s = Some (Received bytesReceived, s1, t1) ->
  bytesReceived < 0 ->
  exists (s2 : state K) (ts : Z),
    pcap_read_haiku fuel callback userdata s
      = Some (if errno s1 =? B_WOULD_BLOCK then 0 else PCAP_ERROR,
              s2, t1 ++ [EvClock ts]) /\
    stat (priv (handle s2)) = stat (priv (handle s)) /\
    errbuf (handle s2)
      = (if errno s1 =? B_WOULD_BLOCK then errbuf (handle s)
         else pcapint_fmt_errmsg_for_errno (errno s1) "recvfrom") /\
    count is_filter (t1 ++ [EvClock ts]) = 0%nat /\
    count is_callback (t1 ++ [EvClock ts]) = 0%nat.
Proof.
  intros E Hn.
  pose proof (receive_handle _ _ _ _ _ E) as (Hh & _).
  pose proof (receive_same _ _ _ _ _ E)
    as (_ & Hp & _ & _ & _ & _ & Hc & Hf).
  apply (f_equal errbuf) in Hh. cbn in Hh.
  rewrite (read_received _ callback userdata _ _ _ _ E).
  rewrite <- Hp, <- Hh.
  apply Z.ltb_lt in Hn.
  unfold deliver. unfold_m. cbn.
  destruct (sys_real_time_clock_usecs (kernel s1)) as [ts k]. cbn.
  rewrite Hn. cbn.
  destruct (errno s1 =? B_WOULD_BLOCK); cbn;
    eexists; exists ts; rewrite !count_app, Hc, Hf; repeat split.
Qed.

(** X3.  A datagram longer than the buffer is counted as received although
    the read fails: the call answers [PCAP_ERROR] with a message that
    gives both sizes, the received counter has grown by one, and neither
    the filter nor the callback has run. *)
Theorem oversize_is_counted {U : Type} (fuel : nat)
    (callback : pcap_handler U) (userdata : U) (s s1 : state K)
    (bytesReceived : Z) (t1 : list event) :
  receive fuel s = Some (Received bytesReceived, s1, t1) ->
  0 <= bytesReceived ->
  bufsize (handle s) < bytesReceived ->
  exists (s2 : state K) (ts : Z),
    pcap_read_haiku fuel callback userdata s
      = Some (PCAP_ERROR, s2, t1 ++ [EvClock ts]) /\
    ps_recv (stat (priv (handle s2)))
      = wrap32 (ps_recv (stat (priv (handle s))) + 1) /\
    ps_drop (stat (priv (handle s2))) = ps_drop (stat (priv (handle s))) /\
    errbuf (handle s2)
      = snprintf_errbuf
          (msg_recv_exceeds bytesReceived (bufsize (handle s))) /\
    count is_filter (t1 ++ [EvClock ts]) = 0%nat /\
    count is_callback (t1 ++ [EvClock ts]) = 0%nat.
Proof.
  intros E Hn Hbig.
  pose proof (receive_same _ _ _ _ _ E)
    as (_ & Hp & _ & Hb & _ & _ & Hc & Hf).
  rewrite (read_received _ callback userdata _ _ _ _ E).
  rewrite <- Hp, <- Hb in *.
  apply Z.ltb_ge in Hn. apply Z.gt_lt_iff, Z.gtb_gt in Hbig.
  unfold deliver. unfold_m. cbn.
  destruct (sys_real_time_clock_usecs (kernel s1)) as [ts k]. cbn.
  rewrite Hn. cbn. rewrite Hbig. cbn.
  eexists; exists ts; rewrite !count_app, Hc, Hf; repeat split.
Qed.

(** X4.  Without a filter every datagram that fits the buffer reaches the
    callback: the call answers 1, the only events after the receive are
    the clock and one callback on the buffer, and nothing is counted as
    dropped. *)
Theorem unfiltered_is_delivered {U : Type} (fuel : nat)
    (callback : pcap_handler U) (userdata : U) (s s1 : state K)
    (bytesReceived : Z) (t1 : list event) :
  fcode_bf_insns (handle s) = None ->
  receive fuel s = Some (Received bytesReceived, s1, t1) ->
  0 <= bytesReceived <= bufsize (handle s) ->
  exists (s2 : state K) (ts : Z) (hdr : pcap_pkthdr),
    pcap_read_haiku fuel callback userdata s
      = Some (1, s2,
              t1 ++ [EvClock ts;
                     EvCallback hdr (buffer_at_offset (handle s1))]) /\
    ps_recv (stat (priv (handle s2)))
      = wrap32 (ps_recv (stat (priv (handle s))) + 1) /\
    ps_drop (stat (priv (handle s2))) = ps_drop (stat (priv (handle s))).
Proof.
  intros Hnone E HL.
  pose proof (receive_same _ _ _ _ _ E)
    as (_ & Hp & _ & Hb & _ & Hf & _ & _).
  rewrite (read_received _ callback userdata _ _ _ _ E).
  rewrite <- Hp, <- Hb, <- Hf in *.
  assert (H1 : (bytesReceived <? 0) = false) by (apply Z.ltb_ge; lia).
  assert (H2 : (bytesReceived >? bufsize (handle s1)) = false).
  { rewrite Z.gtb_ltb. apply Z.ltb_ge. lia. }
  unfold deliver. unfold_m. cbn.
  destruct (sys_real_time_clock_usecs (kernel s1)) as [ts k]. cbn.
  rewrite H1. cbn. rewrite H2. cbn. rewrite Hnone. cbn.
  eexists; exists ts; eexists; repeat split.
Qed.

(** X5.  The header's timestamp is the clock reading of the same call, split
    into seconds and microseconds: the two parts add up to the reading,
    the microseconds stay below a million in size, and they are not
    negative unless the reading is. *)
Theorem timestamp_splits_clock {U : Type} (fuel : nat)
    (callback : pcap_handler U) (userdata : U) (s s' : state K) (r : Z)
    (t : list event) (hdr : pcap_pkthdr) (pkt : list byte) :
  pcap_read_haiku fuel callback userdata s = Some (r, s', t) ->
  In (EvCallback hdr pkt) t ->
  exists ts : Z,
    In (EvClock ts) t /\
    ts = ts_tv_sec hdr * 1000000 + ts_tv_usec hdr /\
    Z.abs (ts_tv_usec hdr) < 1000000 /\
    (0 <= ts -> 0 <= ts_tv_usec hdr).
Proof.
  intros E Hin. unfold pcap_read_haiku in E.
  destruct (receive fuel s) as [[[[|n] s1] t1]|] eqn:E1; try discriminate E.
  - inversion E; subst. apply receive_handle in E1.
    destruct E1 as (_ & Hc & _).
    assert (Hin' : In (EvCallback hdr pkt) (List.filter is_callback t))
      by (apply List.filter_In; split; [exact Hin | reflexivity]).
    rewrite Hc in Hin'. destruct Hin'.
  - apply receive_handle in E1. destruct E1 as (_ & Hc & _).
    assert (G : let '(_, _, t2) := deliver n callback userdata s1 in
                In (EvCallback hdr pkt) t2 ->
                exists ts : Z,
                  In (EvClock ts) t2 /\
                  ts = ts_tv_sec hdr * 1000000 + ts_tv_usec hdr /\
                  Z.abs (ts_tv_usec hdr) < 1000000 /\
                  (0 <= ts -> 0 <= ts_tv_usec hdr)).
    { unfold deliver. unfold_m. cbn.
      destruct (sys_real_time_clock_usecs (kernel s1)) as [ts k]. cbn.
      repeat kstep; intros H; cbn in H;
        repeat (destruct H as [H|H]; try discriminate H);
        try contradiction;
        inversion H; subst; cbn; exists ts;
        (split; [left; reflexivity|]);
        (split; [rewrite Z.mul_comm; apply Z.quot_rem'|]);
        (split; [apply (Z.rem_bound_abs ts 1000000); lia
                | intros Hts; apply Z.rem_nonneg; lia]). }
    destruct (deliver n callback userdata s1) as [[r2 s2] t2].
    inversion E; subst. apply List.in_app_or in Hin.
    destruct Hin as [Hin|Hin].
    + assert (Hin' : In (EvCallback hdr pkt) (List.filter is_callback t1))
        by (apply List.filter_In; split; [exact Hin | reflexivity]).
      rewrite Hc in Hin'. destruct Hin'.
    + destruct (G Hin) as (ts & Hi & Hrest). exists ts.
      split; [apply List.in_or_app; right; exact Hi | exact Hrest].
Qed.

Lemma receive_events (fuel : nat) :
  forall (s s1 : state K) (r : received) (t : list event),
  receive fuel s = Some (r, s1, t) -> forallb is_read_event t = true.
Proof.
  induction fuel as [|fuel IH]; intros s s1 r t E; cbn in E.
  - discriminate E.
  - destruct (negb (break_loop (handle s) =? 0)).
    + inversion E; reflexivity.
    + unfold recvfrom in E.
      destruct (sys_recvfrom _ _ _ _ _) as [[[n e] data] k]. cbn in E.
      match type of E with
      | (if ?c then _ else _) = _ => destruct c
      end.
      * match type of E with
        | match receive fuel ?s0 with _ => _ end = _ =>
          destruct (receive fuel s0) as [[[r2 s2] t2]|] eqn:E2;
            [ | discriminate E]
        end.
        inversion E; subst. cbn. eapply IH; eassumption.
      * inversion E; reflexivity.
Qed.

(** X6.  One call of the read operation hands over at most one packet: it
    answers [PCAP_ERROR_BREAK], [PCAP_ERROR], 0 or 1, the callback runs
    once when the answer is 1 and not at all otherwise, and the call
    talks to the kernel through [recvfrom] and the clock only: it opens
    and closes nothing, issues no request, and leaves both descriptors
    and the session's settings as they are. *)
Theorem read_hands_over_one_packet {U : Type} (fuel : nat)
    (callback : pcap_handler U) (userdata : U) (s s' : state K) (r : Z)
    (t : list event) :
  pcap_read_haiku fuel callback userdata s = Some (r, s', t) ->
  (r = PCAP_ERROR_BREAK \/ r = PCAP_ERROR \/ r = 0 \/ r = 1) /\
  count is_callback t = (if r =? 1 then 1%nat else 0%nat) /\
  forallb is_read_event t = true /\
  fd (handle s') = fd (handle s) /\
  aux_socket (priv (handle s')) = aux_socket (priv (handle s)) /\
  snapshot (handle s') = snapshot (handle s) /\
  bufsize (handle s') = bufsize (handle s) /\
  linktype (handle s') = linktype (handle s) /\
  fcode_bf_insns (handle s') = fcode_bf_insns (handle s).
Proof.
  intros E. unfold pcap_read_haiku in E.
  destruct (receive fuel s) as [[[[|n] s1] t1]|] eqn:E1; try discriminate E.
  - inversion E; subst.
    pose proof (receive_events _ _ _ _ _ E1) as He.
    pose proof (receive_handle _ _ _ _ _ E1) as (Hh & _).
    pose proof (receive_same _ _ _ _ _ E1)
      as (Hfd & Hp & _ & Hb & Hs & Hf & Hc & _).
    apply (f_equal linktype) in Hh. cbn in Hh.
    rewrite Hc, Hp. repeat split; auto.
  - pose proof (receive_events _ _ _ _ _ E1) as He.
    pose proof (receive_handle _ _ _ _ _ E1) as (Hh & _).
    pose proof (receive_same _ _ _ _ _ E1)
      as (Hfd & Hp & _ & Hb & Hs & Hf & Hc & _).
    apply (f_equal linktype) in Hh. cbn in Hh.
    assert (G : let '(r2, s2, t2) := deliver n callback userdata s1 in
                (r2 = PCAP_ERROR_BREAK \/ r2 = PCAP_ERROR \/ r2 = 0
                 \/ r2 = 1) /\
                count is_callback t2 = (if r2 =? 1 then 1%nat else 0%nat) /\
                forallb is_read_event t2 = true /\
                fd (handle s2) = fd (handle s1) /\
                aux_socket (priv (handle s2))
                  = aux_socket (priv (handle s1)) /\
                snapshot (handle s2) = snapshot (handle s1) /\
                bufsize (handle s2) = bufsize (handle s1) /\
                linktype (handle s2) = linktype (handle s1) /\
                fcode_bf_insns (handle s2) = fcode_bf_insns (handle s1)).
    { unfold deliver. unfold_m. cbn.
      repeat kstep; unfold count; cbn; repeat split; auto; congruence. }
    destruct (deliver n callback userdata s1) as [[r2 s2] t2].
    inversion E; subst.
    destruct G as (G1 & G2 & G3 & G4 & G5 & G6 & G7 & G8 & G9).
    rewrite count_app, Hc, G2, List.forallb_app, He, G3.
    rewrite G4, G5, G6, G7, G8, G9, Hp. repeat split; auto.
Qed.

(** *** The statistics query *)

(** X7.  When the kernel answers the statistics request, the query answers 0
    and fills the caller's record with the two counters and with the
    interface drops since activation, in 32-bit arithmetic.  The
    handle's own record, baseline included, stays as it is, so that
    every query measures from activation. *)
Theorem stats_measure_from_activation (stats : pcap_stat) (s : state K)
    (r e : Z) (req : struct_ifreq) (k : K) :
  sys_ioctl (aux_socket (priv (handle s))) SIOCGIFSTATS
            (ifreq (priv (handle s))) (kernel s) = (r, e, req, k) ->
  0 <= r ->
  exists s' : state K,
    pcap_stats_haiku stats s =
    ((0, {| ps_recv := ps_recv (stat (priv (handle s)));
            ps_drop := ps_drop (stat (priv (handle s)));
            ps_ifdrop := wrap32 (ifr_stats_receive_dropped req
                                 - ps_ifdrop (stat (priv (handle s)))) |}),
     s',
     [EvIoctl (aux_socket (priv (handle s))) SIOCGIFSTATS 0 r]) /\
    stat (priv (handle s')) = stat (priv (handle s)) /\
    errbuf (handle s') = errbuf (handle s).
Proof.
  intros E Hr. unfold pcap_stats_haiku, bind, get_handle, pure.
  rewrite (ioctl_ifreq_run _ _ _ _ _ _ _ _ E).
  apply Z.ltb_ge in Hr. rewrite Hr. cbn.
  eexists. repeat split.
Qed.

(** *** What an activation leaves behind *)

Lemma opened_app (t1 t2 : list event) :
  opened (t1 ++ t2) = (opened t1 ++ opened t2)%list.
Proof. apply List.flat_map_app. Qed.

Lemma closed_app (t1 t2 : list event) :
  closed (t1 ++ t2) = (closed t1 ++ closed t2)%list.
Proof. apply List.flat_map_app. Qed.

(** The snapshot length activation settles on. *)
Lemma setup_falls_through (ret : Z) (s s1 : state K) (t1 : list event) :
  activate_setup ret s = (None, s1, t1) ->
  (linktype (handle s1) = DLT_EN10MB \/ linktype (handle s1) = DLT_RAW) /\
  snapshot (handle s1)
    = (if (snapshot (handle s) <=? 0) || (snapshot (handle s) >? MAXIMUM_SNAPLEN)
       then MAXIMUM_SNAPLEN else snapshot (handle s)) /\
  opened t1 = [aux_socket (priv (handle s1)); fd (handle s1)] /\
  closed t1 = [] /\
  count is_packetcap t1 = 1%nat /\
  count is_get_flags t1 = 0%nat /\ count is_set_flags t1 = 0%nat.
Proof.
  intros E.
  assert (G : let '(x, s1, t1) := activate_setup ret s in
              x = None ->
    (linktype (handle s1) = DLT_EN10MB \/ linktype (handle s1) = DLT_RAW) /\
    snapshot (handle s1)
      = (if (snapshot (handle s) <=? 0)
            || (snapshot (handle s) >? MAXIMUM_SNAPLEN)
         then MAXIMUM_SNAPLEN else snapshot (handle s)) /\
    opened t1 = [aux_socket (priv (handle s1)); fd (handle s1)] /\
    closed t1 = [] /\
    count is_packetcap t1 = 1%nat /\
    count is_get_flags t1 = 0%nat /\ count is_set_flags t1 = 0%nat).
  { clear E. unfold activate_setup. unfold_m. cbn.
    repeat kstep; intros HH; try discriminate HH;
      unfold count, opened, closed; cbn;
      repeat match goal with
             | H : (?z <? 0) = false |- context [?z <? 0] => rewrite H
             end; cbn; auto 10; congruence. }
  rewrite E in G. apply G. reflexivity.
Qed.

Ltac events :=
  unfold count, opened, closed; cbn;
  repeat match goal with
         | H : (?z <? 0) = _ |- context [?z <? 0] => rewrite H
         | H : (0 <=? ?z) = _ |- context [0 <=? ?z] => rewrite H
         end; cbn.

(** When the first part leaves for the error exit, it has closed nothing,
    and the descriptors it has opened are the ones the handle holds. *)
Lemma setup_leaves (ret r : Z) (s s1 : state K) (t1 : list event) :
  activate_setup ret s = (Some r, s1, t1) ->
  fd (handle s) < 0 ->
  closed t1 = [] /\
  opened t1 = ((if 0 <=? aux_socket (priv (handle s1))
                then [aux_socket (priv (handle s1))] else [])
               ++ (if 0 <=? fd (handle s1) then [fd (handle s1)] else []))%list /\
  count is_get_flags t1 = 0%nat /\ count is_set_flags t1 = 0%nat /\
  opt_promisc (handle s1) = opt_promisc (handle s).
Proof.
  intros E Hfd.
  assert (G : let '(x, s1, t1) := activate_setup ret s in
              x <> None ->
    closed t1 = [] /\
    opened t1 = ((if 0 <=? aux_socket (priv (handle s1))
                  then [aux_socket (priv (handle s1))] else [])
                 ++ (if 0 <=? fd (handle s1)
                     then [fd (handle s1)] else []))%list /\
    count is_get_flags t1 = 0%nat /\ count is_set_flags t1 = 0%nat /\
    opt_promisc (handle s1) = opt_promisc (handle s)).
  { clear E. unfold activate_setup. unfold_m. cbn.
    repeat kstep; intros HH; try (exfalso; apply HH; reflexivity);
      events; cbn in *; try (exfalso; congruence); zbool;
      unfold PCAP_ERROR in *; try (exfalso; lia); auto 10. }
  rewrite E in G. apply G. discriminate.
Qed.

(** What the cleanup does with descriptors. *)
Lemma cleanup_events (s : state K) :
  let t := snd (pcap_cleanup_haiku s) in
  opened t = [] /\
  closed t = ((if 0 <=? fd (handle s) then [fd (handle s)] else [])
              ++ (if 0 <=? aux_socket (priv (handle s))
                  then [aux_socket (priv (handle s))] else []))%list /\
  count is_packetcap t = 0%nat /\
  (opt_promisc (handle s) = 0 ->
   count is_get_flags t = 0%nat /\ count is_set_flags t = 0%nat).
Proof.
  unfold_m. cbn.
  repeat kstep; events; cbn in *; try (exfalso; congruence);
    repeat split; try reflexivity; try intros HH;
    zbool; try (exfalso; congruence); try lia.
Qed.

(** The promiscuous-mode step opens and closes nothing, and does nothing
    at all when promiscuous mode was not requested. *)
Lemma promisc_step_events (s : state K) :
  let '(y, _, t) := activate_promisc s in
  opened t = [] /\ closed t = [] /\ count is_packetcap t = 0%nat /\
  (opt_promisc (handle s) = 0 -> y = Return 0 /\ t = []).
Proof.
  unfold activate_promisc. unfold_m. cbn.
  repeat kstep; events; cbn in *; try (exfalso; congruence);
    repeat split; try reflexivity; try intros HH;
    zbool; try (exfalso; congruence); try lia.
Qed.

(** The three ways through [pcap_activate_haiku]: out of the first part
    and through the cleanup, out of the promiscuous-mode step and through
    the cleanup, or returning from that step. *)
Lemma activate_ways (s s' : state K) (v : Z) (t : list event) :
  pcap_activate_haiku s = (v, s', t) ->
  (exists s1 t1 t2,
      activate_setup PCAP_ERROR s = (Some v, s1, t1) /\
      pcap_cleanup_haiku s1 = (tt, s', t2) /\ t = (t1 ++ t2)%list) \/
  (exists s1 t1 s2 t2 t3,
      activate_setup PCAP_ERROR s = (None, s1, t1) /\
      activate_promisc s1 = (Goto_error, s2, t2) /\
      pcap_cleanup_haiku s2 = (tt, s', t3) /\ v = PCAP_ERROR /\
      t = (t1 ++ t2 ++ t3)%list) \/
  (exists s1 t1 t2,
      activate_setup PCAP_ERROR s = (None, s1, t1) /\
      activate_promisc s1 = (Return v, s', t2) /\ t = (t1 ++ t2)%list).
Proof.
  unfold pcap_activate_haiku, bind, pure. intros E.
  destruct (activate_setup PCAP_ERROR s) as [[x s1] t1].
  destruct x as [r|].
  - destruct (pcap_cleanup_haiku s1) as [[[] s2] t2] eqn:E2.
    inversion E; subst. left. exists s1, t1, t2.
    rewrite app_nil_r. auto.
  - destruct (activate_promisc s1) as [[y s2] t2] eqn:E2.
    destruct y as [|w].
    + destruct (pcap_cleanup_haiku s2) as [[[] s3] t3] eqn:E3.
      inversion E; subst. right; left. exists s1, t1, s2, t2, t3.
      rewrite app_nil_r. auto 10.
    + inversion E; subst. right; right. exists s1, t1, t2.
      rewrite app_nil_r. auto.
Qed.

(** X8.  A non-negative answer of [pcap_activate_haiku] is 0 or the warning
    that promiscuous mode is not supported, and it comes with a session
    one can capture on: the operations installed, both descriptors open,
    the buffer of 65536 bytes allocated, the link type Ethernet or raw
    IP, and the snapshot length the caller asked for, or the maximum
    when that was not positive or above the maximum. *)
Theorem activation_success_is_usable (s s' : state K) (v : Z)
    (t : list event) :
  pcap_activate_haiku s = (v, s', t) ->
  0 <= v ->
  (v = 0 \/ v = PCAP_WARNING_PROMISC_NOTSUP) /\
  usable (handle s') /\
  (linktype (handle s') = DLT_EN10MB \/ linktype (handle s') = DLT_RAW) /\
  snapshot (handle s')
    = (if (snapshot (handle s) <=? 0) || (snapshot (handle s) >? MAXIMUM_SNAPLEN)
       then MAXIMUM_SNAPLEN else snapshot (handle s)).
Proof.
  intros E Hv.
  destruct (activate_ways _ _ _ _ E)
    as [(s1 & t1 & t2 & E1 & E2 & Ht)
       |[(s1 & t1 & s2 & t2 & t3 & E1 & E2 & E3 & Hv' & Ht)
        |(s1 & t1 & t2 & E1 & E2 & Ht)]].
  - exfalso. pose proof (setup_exits s) as H1. rewrite E1 in H1.
    cbn in H1. unfold PCAP_ERROR, PCAP_ERROR_NO_SUCH_DEVICE in H1.
    destruct H1 as [H1|[H1|H1]]; inversion H1; lia.
  - exfalso. unfold PCAP_ERROR in Hv'. lia.
  - destruct (setup_through _ _ _ _ E1) as (Hu & _).
    destruct (setup_falls_through _ _ _ _ E1) as (Hl & Hs & _).
    pose proof (promisc_step_handle s1) as H2.
    pose proof (promisc_step_exits s1) as H3.
    rewrite E2 in H2, H3. cbn in H2, H3.
    destruct H2 as (Hfd & Hsel & Haux & Hsame).
    unfold same_session in Hsame.
    destruct Hsame as (Hbuf & Hoff & _ & Hbs & Hsn & Hlt & _ & _ & _ & _
                       & _ & Hr & Hsf & Hin & Hst & Hcl & Hgn & Hsnb).
    split.
    { destruct H3 as [H3|[H3|H3]]; inversion H3; auto. }
    split.
    { unfold usable, ops_installed in *.
      rewrite Hfd, Hsel, Haux, Hbuf, Hoff, Hbs, Hsn, Hr, Hsf, Hin, Hst,
        Hcl, Hgn, Hsnb. exact Hu. }
    rewrite Hlt, Hsn. auto.
Qed.

(** X9.  An activation that starts with the capture descriptor closed keeps
    account of descriptors.  On success it has closed nothing and opened
    exactly the two the handle now holds; on failure the handle holds
    none, and every descriptor the call opened it has closed again, the
    capture socket before the control socket. *)
Theorem activation_balances_descriptors (s s' : state K) (v : Z)
    (t : list event) :
  pcap_activate_haiku s = (v, s', t) ->
  fd (handle s) < 0 ->
  if 0 <=? v
  then opened t = [aux_socket (priv (handle s')); fd (handle s')] /\
       closed t = []
  else fd (handle s') < 0 /\ aux_socket (priv (handle s')) = -1 /\
       closed t = rev (opened t).
Proof.
  intros E Hfd.
  destruct (activate_ways _ _ _ _ E)
    as [(s1 & t1 & t2 & E1 & E2 & Ht)
       |[(s1 & t1 & s2 & t2 & t3 & E1 & E2 & E3 & Hv' & Ht)
        |(s1 & t1 & t2 & E1 & E2 & Ht)]].
  - assert (Hv : (0 <=? v) = false).
    { pose proof (setup_exits s) as H1. rewrite E1 in H1.
      cbn in H1. unfold PCAP_ERROR, PCAP_ERROR_NO_SUCH_DEVICE in H1.
      apply Z.leb_gt.
      destruct H1 as [H1|[H1|H1]]; inversion H1; lia. }
    rewrite Hv.
    destruct (setup_leaves _ _ _ _ _ E1 Hfd) as (Hc & Ho & _).
    pose proof (cleanup_events s1) as H2.
    pose proof (cleanup_handle s1) as H3.
    rewrite E2 in H2, H3. cbn [fst snd] in H2, H3.
    destruct H2 as (Ho2 & Hc2 & _). destruct H3 as (Hfd' & Haux' & _).
    assert (Ha : aux_socket (priv (handle s1)) = -1
                 \/ 0 <= aux_socket (priv (handle s1))).
    { clear - E1. revert E1. unfold activate_setup. unfold_m. cbn.
      repeat kstep; intros HH; inversion HH; subst; cbn;
        try congruence; zbool; unfold PCAP_ERROR; auto. }
    assert (Hf : fd (handle s1) < 0 \/ 0 <= fd (handle s1)) by lia.
    subst t. rewrite opened_app, closed_app, Hc, Ho, Ho2, Hc2, Hfd', Haux'.
    clear - Ha Hf.
    destruct (0 <=? fd (handle s1)) eqn:B1;
      destruct (0 <=? aux_socket (priv (handle s1))) eqn:B2;
      zbool; cbn; repeat split; try reflexivity; lia.
  - subst v. cbn.
    destruct (setup_through _ _ _ _ E1) as (Hu & _).
    destruct (setup_falls_through _ _ _ _ E1) as (_ & _ & Ho & Hc & _).
    pose proof (promisc_step_handle s1) as H2.
    pose proof (promisc_step_events s1) as H2'.
    rewrite E2 in H2, H2'. cbn [fst snd] in H2.
    destruct H2 as (Hfd2 & _ & Haux2 & _).
    destruct H2' as (Ho2 & Hc2 & _).
    pose proof (cleanup_events s2) as H3.
    pose proof (cleanup_handle s2) as H4.
    rewrite E3 in H3, H4. cbn [fst snd] in H3, H4.
    destruct H3 as (Ho3 & Hc3 & _). destruct H4 as (Hfd' & Haux' & _).
    destruct Hu as (_ & Hf & _ & Ha & _).
    rewrite <- Hfd2 in Hf. rewrite <- Haux2 in Ha.
    subst t.
    rewrite !opened_app, !closed_app, Hc, Ho, Ho2, Hc2, Ho3, Hc3, Hfd',
      Haux', Hfd2, Haux2.
    rewrite Hfd2 in Hf. rewrite Haux2 in Ha.
    apply Z.leb_le in Hf, Ha. rewrite Hf, Ha. cbn.
    repeat split; reflexivity || lia.
  - assert (Hv : (0 <=? v) = true).
    { pose proof (promisc_step_exits s1) as H3. rewrite E2 in H3.
      cbn in H3. unfold PCAP_WARNING_PROMISC_NOTSUP in H3.
      apply Z.leb_le.
      destruct H3 as [H3|[H3|H3]]; inversion H3; lia. }
    rewrite Hv.
    destruct (setup_falls_through _ _ _ _ E1) as (_ & _ & Ho & Hc & _).
    pose proof (promisc_step_handle s1) as H2.
    pose proof (promisc_step_events s1) as H2'.
    rewrite E2 in H2, H2'. cbn [fst snd] in H2.
    destruct H2 as (Hfd2 & _ & Haux2 & _).
    destruct H2' as (Ho2 & Hc2 & _).
    subst t.
    rewrite opened_app, closed_app, Hc, Ho, Ho2, Hc2, Hfd2, Haux2.
    split; reflexivity.
Qed.

(** X10.  When promiscuous mode is not requested, activation never reads or
    writes the interface flags, whatever its outcome, and never answers
    with the warning. *)
Theorem activation_without_promisc_leaves_flags (s s' : state K) (v : Z)
    (t : list event) :
  pcap_activate_haiku s = (v, s', t) ->
  opt_promisc (handle s) = 0 ->
  count is_get_flags t = 0%nat /\ count is_set_flags t = 0%nat /\
  v <> PCAP_WARNING_PROMISC_NOTSUP.
Proof.
  intros E Hp.
  assert (Hs : forall x s1 t1, activate_setup PCAP_ERROR s = (x, s1, t1) ->
               count is_get_flags t1 = 0%nat /\
               count is_set_flags t1 = 0%nat /\
               opt_promisc (handle s1) = 0).
  { intros x s1 t1. rewrite <- Hp. clear.
    unfold activate_setup. unfold_m. cbn.
    repeat kstep; intros HH; inversion HH; subst; auto. }
  destruct (activate_ways _ _ _ _ E)
    as [(s1 & t1 & t2 & E1 & E2 & Ht)
       |[(s1 & t1 & s2 & t2 & t3 & E1 & E2 & E3 & Hv' & Ht)
        |(s1 & t1 & t2 & E1 & E2 & Ht)]].
  - destruct (Hs _ _ _ E1) as (G1 & G2 & Hp1).
    pose proof (cleanup_events s1) as H2. rewrite E2 in H2. cbn [fst snd] in H2.
    destruct H2 as (_ & _ & _ & H2). destruct (H2 Hp1) as (G3 & G4).
    subst t. rewrite !count_app, G1, G2, G3, G4.
    repeat split.
    pose proof (setup_exits s) as H1. rewrite E1 in H1. cbn in H1.
    unfold PCAP_ERROR, PCAP_ERROR_NO_SUCH_DEVICE,
      PCAP_WARNING_PROMISC_NOTSUP in *.
    destruct H1 as [H1|[H1|H1]]; inversion H1; lia.
  - exfalso. destruct (Hs _ _ _ E1) as (_ & _ & Hp1).
    pose proof (promisc_step_events s1) as H2. rewrite E2 in H2.
    destruct H2 as (_ & _ & _ & H2). destruct (H2 Hp1) as (H3 & _).
    discriminate H3.
  - destruct (Hs _ _ _ E1) as (G1 & G2 & Hp1).
    pose proof (promisc_step_events s1) as H2. rewrite E2 in H2.
    destruct H2 as (_ & _ & _ & H2). destruct (H2 Hp1) as (H3 & H4).
    subst t t2. rewrite app_nil_r. repeat split; try assumption.
    inversion H3. unfold PCAP_WARNING_PROMISC_NOTSUP. lia.
Qed.

(** X11.  Once the control socket is open and the statistics request on it has
    answered, the handle holds the interface's count of dropped packets
    at that moment as its baseline, whatever becomes of the activation
    afterwards; the two counters of the read operation are not reset. *)
Theorem activation_takes_baseline (s : state K) (a e1 : Z) (k1 : K)
    (r2 e2 : Z) (req2 : struct_ifreq) (k2 : K) :
  sys_socket AF_INET SOCK_DGRAM 0 (kernel s) = (a, e1, k1) -> 0 <= a ->
  sys_ioctl a SIOCGIFSTATS (ifreq (priv (handle s))) k1 = (r2, e2, req2, k2) ->
  0 <= r2 ->
  stat (priv (handle (snd (fst (pcap_activate_haiku s))))) =
  {| ps_recv := ps_recv (stat (priv (handle s)));
     ps_drop := ps_drop (stat (priv (handle s)));
     ps_ifdrop := wrap32 (ifr_stats_receive_dropped req2) |}.
Proof.
  intros E1 Ha E2 Hr2.
  assert (G : stat (priv (handle (snd (fst (activate_setup PCAP_ERROR s))))) =
    {| ps_recv := ps_recv (stat (priv (handle s)));
       ps_drop := ps_drop (stat (priv (handle s)));
       ps_ifdrop := wrap32 (ifr_stats_receive_dropped req2) |}).
  { apply Z.ltb_ge in Ha, Hr2.
    unfold activate_setup. unfold_m. cbn.
    repeat kstep; try congruence; reflexivity. }
  destruct (pcap_activate_haiku s) as [[v s'] t] eqn:E. cbn [fst snd].
  destruct (activate_ways _ _ _ _ E)
    as [(s1 & t1 & t2 & F1 & F2 & Ht)
       |[(s1 & t1 & s2 & t2 & t3 & F1 & F2 & F3 & Hv' & Ht)
        |(s1 & t1 & t2 & F1 & F2 & Ht)]];
    rewrite F1 in G; cbn [fst snd] in G.
  - pose proof (cleanup_handle s1) as H. rewrite F2 in H.
    cbn [fst snd] in H. destruct H as (_ & _ & _ & H).
    unfold same_session in H. rewrite <- G. apply H.
  - pose proof (promisc_step_handle s1) as H2. rewrite F2 in H2.
    cbn [fst snd] in H2. destruct H2 as (_ & _ & _ & H2).
    pose proof (cleanup_handle s2) as H. rewrite F3 in H.
    cbn [fst snd] in H. destruct H as (_ & _ & _ & H).
    unfold same_session in H, H2. rewrite <- G.
    transitivity (stat (priv (handle s2))); [apply H | apply H2].
  - pose proof (promisc_step_handle s1) as H2. rewrite F2 in H2.
    cbn [fst snd] in H2. destruct H2 as (_ & _ & _ & H2).
    unfold same_session in H2. rewrite <- G. apply H2.
Qed.

(** *** The cleanup *)

(** X12.  The cleanup closes the descriptors that are open, the capture socket
    first, marks them closed in the handle, and opens nothing.  The rest
    of the session it leaves as it is: the counters, the link type, the
    operations, and also the buffer, which it does not release. *)
Theorem cleanup_closes_what_is_open (s : state K) :
  let '(_, s', t) := pcap_cleanup_haiku s in
  closed t = ((if 0 <=? fd (handle s) then [fd (handle s)] else [])
              ++ (if 0 <=? aux_socket (priv (handle s))
                  then [aux_socket (priv (handle s))] else []))%list /\
  opened t = [] /\
  fd (handle s') = (if 0 <=? fd (handle s) then -1 else fd (handle s)) /\
  aux_socket (priv (handle s'))
    = (if 0 <=? aux_socket (priv (handle s)) then -1
       else aux_socket (priv (handle s))) /\
  same_session (handle s) (handle s').
Proof.
  pose proof (cleanup_events s) as H1. pose proof (cleanup_handle s) as H2.
  destruct (pcap_cleanup_haiku s) as [[u s'] t]. cbn [fst snd] in H1, H2.
  destruct H1 as (Ho & Hc & _). destruct H2 as (Hf & Ha & _ & Hs).
  auto.
Qed.

Lemma land_clear_bit (x p : Z) : Z.land (Z.land x (Z.lnot p)) p = 0.
Proof.
  rewrite <- Z.land_assoc, (Z.land_comm (Z.lnot p) p), Z.land_lnot_diag.
  apply Z.land_0_r.
Qed.

Lemma land_set_bit (x p : Z) : Z.land (Z.lor x p) p = p.
Proof.
  apply Z.bits_inj'. intros n Hn.
  rewrite Z.land_spec, Z.lor_spec.
  destruct (Z.testbit x n), (Z.testbit p n); reflexivity.
Qed.

(** X13.  The interface flags are written in one direction only.  Whatever the
    cleanup submits has the promiscuous bit clear, whatever the
    promiscuous-mode step of activation submits has it set, each writes
    at most once, and neither writes more often than it queries. *)
Theorem flag_writes_have_one_direction (s : state K) :
  let tc := snd (pcap_cleanup_haiku s) in
  let ta := snd (activate_promisc s) in
  Forall (fun fl => Z.land fl IFF_PROMISC = 0) (flags_written tc) /\
  Forall (fun fl => Z.land fl IFF_PROMISC = IFF_PROMISC) (flags_written ta) /\
  (count is_set_flags tc <= count is_get_flags tc <= 1)%nat /\
  (count is_set_flags ta <= count is_get_flags ta <= 1)%nat.
Proof.
  cbv zeta. split; [|split; [|split]].
  - unfold_m. cbn.
    repeat kstep; unfold flags_written; cbn;
      repeat (constructor; try apply land_clear_bit).
  - unfold activate_promisc. unfold_m. cbn.
    repeat kstep; unfold flags_written; cbn;
      repeat (constructor; try apply land_set_bit).
  - unfold_m. cbn. repeat kstep; unfold count; cbn; lia.
  - unfold activate_promisc. unfold_m. cbn.
    repeat kstep; unfold count; cbn; lia.
Qed.

(** X14.  A session that was activated and is then cleaned up has closed every
    descriptor it opened, whatever was read in between: the handle given
    to the cleanup need only hold the two descriptors activation left. *)
Theorem session_closes_every_descriptor (s s1 s1' : state K) (v : Z)
    (t1 : list event) :
  pcap_activate_haiku s = (v, s1, t1) ->
  0 <= v ->
  fd (handle s) < 0 ->
  fd (handle s1') = fd (handle s1) ->
  aux_socket (priv (handle s1')) = aux_socket (priv (handle s1)) ->
  let '(_, s2, t2) := pcap_cleanup_haiku s1' in
  closed (t1 ++ t2) = rev (opened (t1 ++ t2)) /\
  List.length (closed (t1 ++ t2)) = 2%nat /\
  fd (handle s2) = -1 /\ aux_socket (priv (handle s2)) = -1.
Proof.
  intros E Hv Hfd Ef Ea.
  destruct (activate_ways _ _ _ _ E)
    as [(s0 & t0 & t2 & F1 & F2 & Ht)
       |[(s0 & t0 & s2 & t2 & t3 & F1 & F2 & F3 & Hv' & Ht)
        |(s0 & t0 & t2 & F1 & F2 & Ht)]].
  - exfalso. pose proof (setup_exits s) as H1. rewrite F1 in H1.
    cbn in H1. unfold PCAP_ERROR, PCAP_ERROR_NO_SUCH_DEVICE in H1.
    destruct H1 as [H1|[H1|H1]]; inversion H1; lia.
  - exfalso. unfold PCAP_ERROR in Hv'. lia.
  - destruct (setup_through _ _ _ _ F1) as (Hu & _).
    destruct (setup_falls_through _ _ _ _ F1) as (_ & _ & Ho & Hc & _).
    pose proof (promisc_step_handle s0) as H2.
    pose proof (promisc_step_events s0) as H2'.
    rewrite F2 in H2, H2'. cbn [fst snd] in H2.
    destruct H2 as (Hfd2 & _ & Haux2 & _).
    destruct H2' as (Ho2 & Hc2 & _).
    destruct Hu as (_ & Hf & _ & Ha & _).
    rewrite <- Hfd2, <- Ef in Hf. rewrite <- Haux2, <- Ea in Ha.
    pose proof (cleanup_events s1') as H3.
    pose proof (cleanup_handle s1') as H4.
    destruct (pcap_cleanup_haiku s1') as [[u s3] t3].
    cbn [fst snd] in H3, H4.
    destruct H3 as (Ho3 & Hc3 & _). destruct H4 as (Hfd' & Haux' & _).
    subst t1.
    rewrite !opened_app, !closed_app, Hc, Ho, Ho2, Hc2, Ho3, Hc3, Hfd',
      Haux'.
    apply Z.leb_le in Hf, Ha. rewrite Hf, Ha. cbn.
    rewrite Ef, Ea, Hfd2, Haux2. repeat split; reflexivity.
Qed.

(** *** Creating a handle and listing devices *)

Lemma scan_badversions_spec (l : list string) (uts_version : string) :
  (scan_badversions l uts_version = 0 <->
   exists bad, In bad l /\ String.prefix bad uts_version = true) /\
  (scan_badversions l uts_version = 0 \/ scan_badversions l uts_version = 1).
Proof.
  induction l as [|b l [IH1 IH2]]; cbn.
  - split; [|auto]. split; [discriminate | intros (bad & [] & _)].
  - destruct (String.prefix b uts_version) eqn:E.
    + split; [|auto]. split; [|reflexivity].
      intros _. exists b. auto.
    + split; [|exact IH2]. rewrite IH1. split.
      * intros (bad & Hin & Hp). exists bad. auto.
      * intros (bad & [Hb|Hin] & Hp).
        -- subst bad. congruence.
        -- exists bad. auto.
Qed.

Lemma can_be_bound_values (uts_version name : string) :
  can_be_bound uts_version name = 0 \/ can_be_bound uts_version name = 1.
Proof.
  unfold can_be_bound.
  destruct (negb (String.eqb name "loop")); [auto|].
  apply scan_badversions_spec.
Qed.

(** X15.  [can_be_bound] answers 0 or 1, and 0 only for the interface named
    loop on a system whose version string starts with one of the five
    listed revisions; every other interface can be bound on every
    system. *)
Theorem can_be_bound_refuses_only_old_loopback (uts_version name : string) :
  (can_be_bound uts_version name = 0 <->
   name = "loop"%string /\
   exists bad, In bad badversions /\ String.prefix bad uts_version = true) /\
  (can_be_bound uts_version name = 0 \/ can_be_bound uts_version name = 1).
Proof.
  unfold can_be_bound.
  destruct (scan_badversions_spec badversions uts_version) as [H1 H2].
  destruct (String.eqb name "loop") eqn:E; cbn.
  - apply String.eqb_eq in E. split; [|exact H2].
    rewrite H1. split; [auto | intros (_ & H); exact H].
  - apply String.eqb_neq in E. split; [|auto].
    split; [discriminate | intros (H & _); contradiction].
Qed.

(** X16.  What [pcapint_create_interface] answers.  A handle comes only for a
    name that fits the request record and an interface that can be
    bound; it then has the name in its request record, the control
    socket marked closed and the activation routine installed, and the
    error buffer is untouched.  Without a handle, the error buffer holds
    one of the function's three messages. *)
Theorem creation_outcomes (uts_version device errorBuffer : string)
    (allocated : option pcap_t) (errno : Z) :
  match pcapint_create_interface_checked uts_version device errorBuffer
          allocated errno with
  | (Some h, eb) =>
    Z.of_nat (String.length device) < IF_NAMESIZE /\
    can_be_bound uts_version device = 1 /\
    eb = errorBuffer /\
    ifr_name (ifreq (priv h)) = device /\
    aux_socket (priv h) = -1 /\
    activate_op h = Fn_pcap_activate_haiku /\
    exists h0, allocated = Some h0 /\ fd h = fd h0 /\
               stat (priv h) = stat (priv h0) /\
               orig_promisc (priv h) = orig_promisc (priv h0)
  | (None, eb) =>
    (IF_NAMESIZE <= Z.of_nat (String.length device) /\
     eb = snprintf_errbuf (msg_name_too_long device)) \/
    (can_be_bound uts_version device = 0 /\
     eb = snprintf_errbuf (msg_no_capture device)) \/
    (allocated = None /\ eb = pcapint_fmt_errmsg_for_errno errno "malloc")
  end.
Proof.
  unfold pcapint_create_interface_checked, validate_ifname.
  destruct (Z.of_nat (String.length device) >=? IF_NAMESIZE) eqn:E1; cbn.
  - zbool. left. split; [lia | reflexivity].
  - pose proof (can_be_bound_values uts_version device) as Hc.
    destruct (can_be_bound uts_version device =? 0) eqn:E2.
    + zbool. right; left. auto.
    + destruct allocated as [h0|].
      * zbool. repeat split; try reflexivity; try lia.
        exists h0. repeat split.
      * right; right. auto.
Qed.

(** X17.  [get_if_flags] answers 0 or [PCAP_ERROR], closes the socket it
    opens on every path, and never writes the interface flags.  When it
    fails the caller's flags are as they were. *)
Theorem get_if_flags_releases_its_socket (name : string) (flags : Z)
    (errbuf : string) (req : struct_ifreq) (errno : Z) (k : K) :
  let '(v, fl, _, _, _, t) := get_if_flags name flags errbuf req errno k in
  (v = 0 \/ v = PCAP_ERROR) /\
  closed t = opened t /\ (List.length (opened t) <= 1)%nat /\
  count is_set_flags t = 0%nat /\
  (v = PCAP_ERROR -> fl = flags).
Proof.
  unfold get_if_flags, validate_ifname, dgram_socket_at, ioctl_ifreq_at.
  repeat kstep; events; cbn in *; try (exfalso; congruence);
    unfold PCAP_ERROR; repeat split; auto; try lia; try discriminate.
Qed.




End MoreProperties.

(** ** The further theorems at work *)

Import Sim2.


(** A receive that fails with an input/output error. *)
Lemma failed_receive_ends_read_witness :
  exists (s2 : state iface) (ts : Z),
    pcap_read_haiku 1 count_packets tt io_error
      = Some (if errno io_error_received =? B_WOULD_BLOCK
              then 0 else PCAP_ERROR,
              s2, [EvRecvfrom 4 65536 (-1)] ++ [EvClock ts]) /\
    stat (priv (handle s2)) = stat (priv (handle io_error)) /\
    errbuf (handle s2)
      = (if errno io_error_received =? B_WOULD_BLOCK
         then errbuf (handle io_error)
         else pcapint_fmt_errmsg_for_errno (errno io_error_received)
                "recvfrom") /\
    count is_filter ([EvRecvfrom 4 65536 (-1)] ++ [EvClock ts]) = 0%nat /\
    count is_callback ([EvRecvfrom 4 65536 (-1)] ++ [EvClock ts]) = 0%nat.
Proof.
  apply (failed_receive_ends_read 1 count_packets tt io_error
           io_error_received (-1) [EvRecvfrom 4 65536 (-1)]).
  - vm_compute. reflexivity.
  - lia.
Defined.

Lemma oversize_receive :
  receive 1 oversize
  = Some (Received 65537, oversize_received, [EvRecvfrom 4 65536 65537]).
Proof.
  assert (E : option_map (fun x => (fst (fst x), snd x)) (receive 1 oversize)
              = Some (Received 65537, [EvRecvfrom 4 65536 65537]))
    by (vm_compute; reflexivity).
  unfold oversize_received.
  destruct (receive 1 oversize) as [[[r s1] t1]|]; cbn in E;
    inversion E; subst; reflexivity.
Qed.

(** A datagram of 65537 bytes. *)
Lemma oversize_is_counted_witness :
  exists (s2 : state iface) (ts : Z),
    pcap_read_haiku 1 count_packets tt oversize
      = Some (PCAP_ERROR, s2, [EvRecvfrom 4 65536 65537] ++ [EvClock ts]) /\
    ps_recv (stat (priv (handle s2)))
      = wrap32 (ps_recv (stat (priv (handle oversize))) + 1) /\
    ps_drop (stat (priv (handle s2)))
      = ps_drop (stat (priv (handle oversize))) /\
    errbuf (handle s2)
      = snprintf_errbuf
          (msg_recv_exceeds 65537 (bufsize (handle oversize))) /\
    count is_filter ([EvRecvfrom 4 65536 65537] ++ [EvClock ts]) = 0%nat /\
    count is_callback ([EvRecvfrom 4 65536 65537] ++ [EvClock ts]) = 0%nat.
Proof.
  apply (oversize_is_counted 1 count_packets tt oversize oversize_received
           65537 [EvRecvfrom 4 65536 65537]).
  - exact oversize_receive.
  - lia.
  - vm_compute. reflexivity.
Defined.

(** Three bytes on a session without a filter. *)
Lemma unfiltered_is_delivered_witness :
  exists (s2 : state iface) (ts : Z) (hdr : pcap_pkthdr),
    pcap_read_haiku 1 count_packets tt unfiltered
      = Some (1, s2,
              [EvRecvfrom 4 65536 3]
              ++ [EvClock ts;
                  EvCallback hdr
                    (buffer_at_offset (handle unfiltered_received))]) /\
    ps_recv (stat (priv (handle s2)))
      = wrap32 (ps_recv (stat (priv (handle unfiltered))) + 1) /\
    ps_drop (stat (priv (handle s2)))
      = ps_drop (stat (priv (handle unfiltered))).
Proof.
  apply (unfiltered_is_delivered 1 count_packets tt unfiltered
           unfiltered_received 3 [EvRecvfrom 4 65536 3]).
  - reflexivity.
  - vm_compute. reflexivity.
  - vm_compute. split; discriminate.
Defined.

(** The packet of that read, stamped 1700000000 s and 123456 us. *)
Lemma timestamp_splits_clock_witness :
  exists ts : Z,
    In (EvClock ts) (snd unfiltered_read) /\
    ts = 1700000000 * 1000000 + 123456 /\
    Z.abs 123456 < 1000000 /\
    (0 <= ts -> 0 <= 123456).
Proof.
  apply (timestamp_splits_clock 1 count_packets tt unfiltered
           (snd (fst unfiltered_read)) (fst (fst unfiltered_read))
           (snd unfiltered_read)
           {| ts_tv_sec := 1700000000; ts_tv_usec := 123456;
              caplen := 3; len := 3 |}
           [Byte.x01; Byte.x02; Byte.x03]).
  - vm_compute. reflexivity.
  - vm_compute. right; right; left. reflexivity.
Defined.

Lemma read_hands_over_one_packet_witness :
  let r := fst (fst unfiltered_read) in
  let s' := snd (fst unfiltered_read) in
  let t := snd unfiltered_read in
  (r = PCAP_ERROR_BREAK \/ r = PCAP_ERROR \/ r = 0 \/ r = 1) /\
  count is_callback t = (if r =? 1 then 1%nat else 0%nat) /\
  forallb is_read_event t = true /\
  fd (handle s') = fd (handle unfiltered) /\
  aux_socket (priv (handle s')) = aux_socket (priv (handle unfiltered)) /\
  snapshot (handle s') = snapshot (handle unfiltered) /\
  bufsize (handle s') = bufsize (handle unfiltered) /\
  linktype (handle s') = linktype (handle unfiltered) /\
  fcode_bf_insns (handle s') = fcode_bf_insns (handle unfiltered).
Proof.
  apply (read_hands_over_one_packet 1 count_packets tt unfiltered
           (snd (fst unfiltered_read)) (fst (fst unfiltered_read))
           (snd unfiltered_read)).
  vm_compute. reflexivity.
Defined.

(** Twelve dropped by now, seven at activation: five since. *)
Lemma stats_measure_from_activation_witness :
  exists s' : state iface,
    pcap_stats_haiku {| ps_recv := 11; ps_drop := 22; ps_ifdrop := 33 |}
                     later_drops =
    ((0, {| ps_recv := 0; ps_drop := 0; ps_ifdrop := 5 |}), s',
     [EvIoctl 3 SIOCGIFSTATS 0 0]) /\
    stat (priv (handle s')) = stat (priv (handle later_drops)) /\
    errbuf (handle s') = errbuf (handle later_drops).
Proof.
  apply (stats_measure_from_activation
           {| ps_recv := 11; ps_drop := 22; ps_ifdrop := 33 |} later_drops
           0 0
           (snd (fst (sim_ioctl 3 SIOCGIFSTATS
                        (ifreq (priv (handle later_drops)))
                        (kernel later_drops))))
           (kernel later_drops)).
  - vm_compute. reflexivity.
  - lia.
Defined.

(** The plain session activates: answer 0, snapshot length 64 kept. *)
Lemma activation_success_is_usable_witness :
  let v := fst (fst plain_activation) in
  let s' := snd (fst plain_activation) in
  (v = 0 \/ v = PCAP_WARNING_PROMISC_NOTSUP) /\
  usable (handle s') /\
  (linktype (handle s') = DLT_EN10MB \/ linktype (handle s') = DLT_RAW) /\
  snapshot (handle s')
    = (if (snapshot (handle plain) <=? 0)
          || (snapshot (handle plain) >? MAXIMUM_SNAPLEN)
       then MAXIMUM_SNAPLEN else snapshot (handle plain)).
Proof.
  apply (activation_success_is_usable plain (snd (fst plain_activation))
           (fst (fst plain_activation)) (snd plain_activation)).
  - vm_compute. reflexivity.
  - vm_compute. discriminate.
Defined.

(** The activation that fails at its first request has opened the
    control socket and closed it again. *)
Lemma activation_balances_descriptors_witness :
  let s' := snd (fst failed_activation) in
  let t := snd failed_activation in
  fd (handle s') < 0 /\ aux_socket (priv (handle s')) = -1 /\
  closed t = rev (opened t).
Proof.
  pose proof (activation_balances_descriptors early_failure
                (snd (fst failed_activation)) (fst (fst failed_activation))
                (snd failed_activation)) as H.
  change (0 <=? fst (fst failed_activation)) with false in H.
  apply H.
  - vm_compute. reflexivity.
  - vm_compute. reflexivity.
Defined.

Lemma activation_without_promisc_leaves_flags_witness :
  count is_get_flags (snd plain_activation) = 0%nat /\
  count is_set_flags (snd plain_activation) = 0%nat /\
  fst (fst plain_activation) <> PCAP_WARNING_PROMISC_NOTSUP.
Proof.
  apply (activation_without_promisc_leaves_flags plain
           (snd (fst plain_activation)) (fst (fst plain_activation))
           (snd plain_activation)).
  - vm_compute. reflexivity.
  - reflexivity.
Defined.

(** The interface had dropped 7 packets when the plain session was
    activated. *)
Lemma activation_takes_baseline_witness :
  stat (priv (handle (snd (fst (pcap_activate_haiku plain))))) =
  {| ps_recv := ps_recv (stat (priv (handle plain)));
     ps_drop := ps_drop (stat (priv (handle plain)));
     ps_ifdrop :=
       wrap32 (ifr_stats_receive_dropped
                 (snd (fst (sim_ioctl 3 SIOCGIFSTATS
                              (ifreq (priv (handle plain)))
                              (snd (sim_socket 1 2 0 ether)))))) |}.
Proof.
  apply (activation_takes_baseline plain 3 0 (snd (sim_socket 1 2 0 ether))
           0 0
           (snd (fst (sim_ioctl 3 SIOCGIFSTATS
                        (ifreq (priv (handle plain)))
                        (snd (sim_socket 1 2 0 ether)))))
           (snd (sim_socket 1 2 0 ether))).
  - vm_compute. reflexivity.
  - lia.
  - vm_compute. reflexivity.
  - lia.
Defined.

(** The plain session activated, one packet read, then cleaned up. *)
Lemma session_closes_every_descriptor_witness :
  let '(_, s2, t2) := pcap_cleanup_haiku unfiltered_done in
  closed (snd plain_activation ++ t2)
    = rev (opened (snd plain_activation ++ t2)) /\
  List.length (closed (snd plain_activation ++ t2)) = 2%nat /\
  fd (handle s2) = -1 /\ aux_socket (priv (handle s2)) = -1.
Proof.
  apply (session_closes_every_descriptor plain (snd (fst plain_activation))
           unfiltered_done (fst (fst plain_activation))
           (snd plain_activation)).
  - vm_compute. reflexivity.
  - vm_compute. discriminate.
  - vm_compute. reflexivity.
  - vm_compute. reflexivity.
  - vm_compute. reflexivity.
Defined.

